(** * Brute-force contract discovery scripts: a shallow embedding

    Two Python scripts are modelled here.

    - [find_addr.py] completes one unknown character of a bech32 address by
      trying every symbol of the bech32 alphabet against a REST endpoint and
      stopping at the first response that is not a bech32 decoding error.
    - [find_marketplace.py] walks the code IDs 1..99, asks the endpoint for
      one contract of each code ID, and queries that contract's config.

    Both scripts talk to the outside world only through [subprocess.run]
    (a [curl] child process), [print] and [time.sleep].  The embedding keeps
    these three effects visible: a computation maps a world to a new world,
    the list of events it emitted, and either a raised exception or a value.
    The transport ([subprocess.run]) and the JSON parser ([json.loads]) are
    parameters of the development, so every theorem holds for every
    behaviour of the remote service and for every parser.

    Characters are modelled as [ascii]; a Python [str] is a [string].  Only
    exceptions below [Exception] are modelled: [KeyboardInterrupt] and
    [SystemExit] are operator actions, not outcomes of a request. *)

From Stdlib Require Import String Ascii List Sorted ZArith QArith Lia Bool.
From Stdlib Require Import DecimalString DecimalZ.
From Stdlib Require Import Floats.SpecFloat.
Import ListNotations.
Set Warnings "-register-all".
Set Warnings "-automation".

Local Open Scope list_scope.
Local Open Scope string_scope.

(** ** The Python runtime the scripts rely on *)
Module Py.

(** [sub in s] for two [str] values. *)
Fixpoint contains (sub s : string) : bool :=
  if String.prefix sub s then true
  else match s with
       | EmptyString => false
       | String _ s' => contains sub s'
       end.

(** [str(i)] for an [int], as an f-string renders it. *)
Definition str_of_int (z : Z) : string :=
  NilZero.string_of_int (Z.to_int z).

(** [s[:n]]. *)
Definition slice_to (n : nat) (s : string) : string := substring 0 n s.

(** A raised instance of [Exception]: its class and [str(e)]. *)
Record exn : Type := Exn { exn_class : string; exn_str : string }.

(** What [subprocess.run(..., capture_output=True, text=True)] returns.
    [curl -s] that cannot reach the host exits non-zero with an empty
    [stdout]; no exception is raised for it. *)
Record CompletedProcess : Type :=
  { returncode : Z; stdout : string; stderr : string }.

(** Values [json.loads] can return. The parser hands over a [dict] as
    the list of its bindings, a key bound once; a lookup takes the binding
    of the key. *)
Inductive json : Type :=
| JNone
| JBool (b : bool)
| JInt (z : Z)
| JFloat (f : spec_float)
| JStr (s : string)
| JList (l : list json)
| JDict (m : list (string * json)).

Definition type_name (v : json) : string :=
  match v with
  | JNone => "NoneType"
  | JBool _ => "bool"
  | JInt _ => "int"
  | JFloat _ => "float"
  | JStr _ => "str"
  | JList _ => "list"
  | JDict _ => "dict"
  end.

(** Truth value of an object, as [if contracts:] tests it. *)
Definition truthy (v : json) : bool :=
  match v with
  | JNone => false
  | JBool b => b
  | JInt z => negb (z =? 0)%Z
  | JFloat (S754_zero _) => false
  | JFloat _ => true
  | JStr s => negb (s =? "")
  | JList l => match l with [] => false | _ :: _ => true end
  | JDict m => match m with [] => false | _ :: _ => true end
  end.

Fixpoint lookup (key : string) (m : list (string * json)) : option json :=
  match m with
  | [] => None
  | (k, v) :: m' => if k =? key then Some v else lookup key m'
  end.

(** [data.get(key, default)]: only a [dict] has the method. *)
Definition dict_get (data : json) (key : string) (default : json) : exn + json :=
  match data with
  | JDict m =>
      inr (match lookup key m with Some v => v | None => default end)
  | _ =>
      inl (Exn "AttributeError"
             ("'" ++ type_name data ++ "' object has no attribute 'get'"))
  end.

(** [v[0]]. *)
Definition getitem0 (v : json) : exn + json :=
  match v with
  | JList (x :: _) => inr x
  | JList [] => inl (Exn "IndexError" "list index out of range")
  | JStr (String c _) => inr (JStr (String c ""))
  | JStr EmptyString => inl (Exn "IndexError" "string index out of range")
  | JDict _ => inl (Exn "KeyError" "0")
  | _ =>
      inl (Exn "TypeError" ("'" ++ type_name v ++ "' object is not subscriptable"))
  end.

(** [range(start, stop, step)] as CPython builds it: the length is computed
    once, and item [k] is [start + k * step]. [step = 0] raises
    [ValueError]; it is given the empty range here and no script uses it. *)
Definition range_len (lo hi step : Z) : Z :=
  if (lo <? hi)%Z then (1 + (hi - 1 - lo) / step)%Z else 0%Z.

Definition range (start stop step : Z) : list Z :=
  let n :=
    if (0 <? step)%Z then range_len start stop step
    else if (step <? 0)%Z then range_len stop start (- step)
    else 0%Z in
  map (fun k => (start + Z.of_nat k * step)%Z) (seq 0 (Z.to_nat n)).

(** Observable effects of a script, in the order they happen. *)
Inductive event : Type :=
| EvRun (cmd : list string)
| EvPrint (line : string)
| EvSleep (secs : Q).

(** A computation: from a world to the new world, the events emitted, and
    a raised exception or a value. *)
Definition M (W A : Type) : Type := W -> W * list event * (exn + A).

Section Monad.
Context {W : Type}.

Definition ret {A} (a : A) : M W A := fun w => (w, [], inr a).

Definition bind {A B} (m : M W A) (f : A -> M W B) : M W B :=
  fun w =>
    match m w with
    | (w1, t1, inl e) => (w1, t1, inl e)
    | (w1, t1, inr a) =>
        match f a w1 with
        | (w2, t2, r) => (w2, (t1 ++ t2)%list, r)
        end
    end.

(** [try: body / except Exception as e: handler e]. *)
Definition try_except {A} (body : M W A) (handler : exn -> M W A) : M W A :=
  fun w =>
    match body w with
    | (w1, t1, inr a) => (w1, t1, inr a)
    | (w1, t1, inl e) =>
        match handler e w1 with
        | (w2, t2, r) => (w2, (t1 ++ t2)%list, r)
        end
    end.

(** A pure step that may raise. *)
Definition lift {A} (r : exn + A) : M W A := fun w => (w, [], r).

Definition print (line : string) : M W unit :=
  fun w => (w, [EvPrint line], inr tt).

Definition sleep (secs : Q) : M W unit :=
  fun w => (w, [EvSleep secs], inr tt).

(** [subprocess.run(cmd, capture_output=True, text=True)] over a transport
    that answers a command in a world. *)
Definition run (transport : W -> list string -> W * (exn + CompletedProcess))
    (cmd : list string) : M W CompletedProcess :=
  fun w => let (w', r) := transport w cmd in (w', [EvRun cmd], r).

End Monad.

(** The commands a trace ran, in order. *)
Fixpoint runs_of (t : list event) : list (list string) :=
  match t with
  | [] => []
  | EvRun cmd :: t' => cmd :: runs_of t'
  | _ :: t' => runs_of t'
  end.

(** The lines a trace printed, in order. *)
Fixpoint prints_of (t : list event) : list string :=
  match t with
  | [] => []
  | EvPrint s :: t' => s :: prints_of t'
  | _ :: t' => prints_of t'
  end.

(** The durations a trace slept, in order. *)
Fixpoint sleeps_of (t : list event) : list Q :=
  match t with
  | [] => []
  | EvSleep secs :: t' => secs :: sleeps_of t'
  | _ :: t' => sleeps_of t'
  end.

End Py.

Import Py.

Declare Scope py_scope.
Delimit Scope py_scope with py.
Notation "x <- m ;; k" := (bind m (fun x => k))
  (at level 61, m at next level, right associativity) : py_scope.
Notation "m ;; k" := (bind m (fun _ => k))
  (at level 61, right associativity) : py_scope.

(** The REST endpoint and the fixed smart query, base64 of the config query. *)
Definition contract_url (addr : string) : string :=
  "https://rest.stargaze-apis.com/cosmwasm/wasm/v1/contract/" ++ addr
    ++ "/smart/eyJjb25maWciOnt9fQ==".

Definition code_url (code_id : string) : string :=
  "https://rest.stargaze-apis.com/cosmwasm/wasm/v1/code/" ++ code_id
    ++ "/contracts?pagination.limit=1".

Definition curl (url : string) : list string :=
  ["curl"; "-s"; "-X"; "GET"; url; "-H"; "accept: application/json"].

(** ** find_addr.py *)
Module FindAddr.

Section Script.
Context {W : Type}.
Variable subprocess_run : W -> list string -> W * (exn + CompletedProcess).
Variable charset : string.
Variable base_addr_parts : string * string.

Local Open Scope py_scope.

Definition address (char : string) : string :=
  fst base_addr_parts ++ char ++ snd base_addr_parts.

(** [check_address]: the [return True] inside the [try] is the [Some]
    result of the guarded block; falling out of it, or the handler's
    [pass], leads to the final [return False]. *)
Definition check_address (char : string) : M W bool :=
  let addr := address char in
  let cmd := curl (contract_url addr) in
  returned <-
    try_except
      (result <- run subprocess_run cmd ;;
       if negb (contains "decoding bech32 failed" (stdout result)) then
         print ("FOUND MATCH: " ++ addr) ;;
         print ("Response: " ++ stdout result) ;;
         ret (Some true)
       else ret None)
      (fun _ => ret None) ;;
  match returned with
  | Some b => ret b
  | None => ret false
  end.

(** [for c in charset: if check_address(c): break]; the value tells
    whether the loop was left by [break]. *)
Fixpoint for_c_in (cs : string) : M W bool :=
  match cs with
  | EmptyString => ret false
  | String c cs' =>
      hit <- check_address (String c "") ;;
      if hit then ret true else for_c_in cs'
  end.

Definition main : M W bool :=
  print "Brute forcing address..." ;;
  for_c_in charset.

(** The candidate addresses, in the order the loop would try them, and the
    command that queries one of them. *)
Definition candidates : list string :=
  map (fun c => address (String c "")) (list_ascii_of_string charset).

Definition query (addr : string) : list string := curl (contract_url addr).

(** What [check_address] prints for a match. *)
Definition found_report (addr payload : string) : list event :=
  [EvPrint ("FOUND MATCH: " ++ addr); EvPrint ("Response: " ++ payload)].

End Script.

Definition charset : string := "qpzry9x8gf2tvdw0s3jn54khce6mua7l".

Definition base_addr_parts : string * string :=
  ("stars1fvhcnyddukcqf87l2u9z6f", "xm8e9gnv7qusmdnhaq363wwr5dapq2y05v9").

(** The script as it is run. *)
Definition script {W} (subprocess_run : W -> list string -> W * (exn + CompletedProcess))
  : M W bool :=
  main subprocess_run charset base_addr_parts.

End FindAddr.

(** ** find_marketplace.py *)
Module FindMarketplace.

Section Script.
Context {W : Type}.
Variable subprocess_run : W -> list string -> W * (exn + CompletedProcess).
Variable json_loads : string -> exn + json.
(** [str(v)] for the values that are not a [str] already; what an f-string
    inserts for them. *)
Variable repr : json -> string.

Local Open Scope py_scope.

Definition fmt (v : json) : string :=
  match v with
  | JStr s => s
  | _ => repr v
  end.

Definition check_contract (addr : json) : M W unit :=
  let cmd := curl (contract_url (fmt addr)) in
  try_except
    (result <- run subprocess_run cmd ;;
     if contains "data" (stdout result) then
       print ("Contract " ++ fmt addr ++ " Config: " ++ slice_to 200 (stdout result))
     else ret tt)
    (fun _ => ret tt).

Definition scan_code_id (code_id : Z) : M W unit :=
  print ("Scanning Code ID " ++ str_of_int code_id ++ "...") ;;
  let cmd := curl (code_url (str_of_int code_id)) in
  try_except
    (result <- run subprocess_run cmd ;;
     data <- lift (json_loads (stdout result)) ;;
     contracts <- lift (dict_get data "contracts" (JList [])) ;;
     if truthy contracts then
       addr <- lift (getitem0 contracts) ;;
       print ("Code " ++ str_of_int code_id ++ " has contract: " ++ fmt addr) ;;
       check_contract addr
     else ret tt)
    (fun e =>
       print ("Error scanning " ++ str_of_int code_id ++ ": " ++ exn_str e)).

(** [for i in ids: scan_code_id(i); time.sleep(0.5)]. *)
Fixpoint for_i_in (ids : list Z) : M W unit :=
  match ids with
  | [] => ret tt
  | i :: ids' =>
      scan_code_id i ;;
      sleep (1 # 2) ;;
      for_i_in ids'
  end.

(** The script: [for i in range(1, 100)]. *)
Definition main : M W unit := for_i_in (range 1 100 1).

(** The two commands of the script, and the lines it prints. *)
Definition code_query (code_id : Z) : list string :=
  curl (code_url (str_of_int code_id)).

Definition contract_query (addr : json) : list string :=
  curl (contract_url (fmt addr)).

Definition scanning_line (code_id : Z) : string :=
  "Scanning Code ID " ++ str_of_int code_id ++ "...".

Definition error_line (code_id : Z) (e : exn) : string :=
  "Error scanning " ++ str_of_int code_id ++ ": " ++ exn_str e.

Definition contract_line (code_id : Z) (addr : json) : string :=
  "Code " ++ str_of_int code_id ++ " has contract: " ++ fmt addr.

Definition config_line (addr : json) (body : string) : string :=
  "Contract " ++ fmt addr ++ " Config: " ++ slice_to 200 body.

(** The contract a response body leads [scan_code_id] to query, if any:
    the parse, the [get] and the [[0]] of its guarded block, with the
    exception any of them raises. *)
Definition first_contract (body : string) : exn + option json :=
  match json_loads body with
  | inl e => inl e
  | inr data =>
      match dict_get data "contracts" (JList []) with
      | inl e => inl e
      | inr contracts =>
          if truthy contracts then
            match getitem0 contracts with
            | inl e => inl e
            | inr addr => inr (Some addr)
            end
          else inr None
      end
  end.

End Script.

End FindMarketplace.

(** ** The vocabulary of the design document

    The design document describes the scripts as a candidate source, a
    verifier and a search driver.  The definitions below follow its words;
    the theorems compare them with the scripts. *)
Module Design.

(** The numeric candidate source of the design: the integers from [first]
    to [last] inclusive with stride [step], which is Python's
    [range(first, last + 1, step)]. *)
Definition numeric_source (first last step : Z) : list Z :=
  range first (last + 1) step.

(** Ceiling of a quotient, for a positive divisor. *)
Definition ceil_div (a b : Z) : Z := (- ((- a) / b))%Z.

Inductive outcome : Type :=
| Match (payload : string)
| NoMatch
| Invalid
| TransportError.

(** The three-step rule of the design for a response body: the bech32
    failure marker, then a mapping with a top-level key [data]. *)
Definition three_step_rule (json_loads : string -> exn + json) (body : string)
  : outcome :=
  if contains "decoding bech32 failed" body then Invalid
  else match json_loads body with
       | inr (JDict m) =>
           match lookup "data" m with
           | Some _ => Match body
           | None => NoMatch
           end
       | _ => NoMatch
       end.

(** A transport-level failure in the sense of the design: the child process
    could not be run, or [curl] exited with a non-zero status. *)
Definition transport_failed (r : exn + CompletedProcess) : bool :=
  match r with
  | inl _ => true
  | inr res => negb (returncode res =? 0)%Z
  end.

(** Requests for the contract list of a code ID, as opposed to smart
    queries of a contract. *)
Definition is_code_request (cmd : list string) : bool :=
  match nth_error cmd 4 with
  | Some url =>
      String.prefix "https://rest.stargaze-apis.com/cosmwasm/wasm/v1/code/" url
  | None => false
  end.

Definition any_request (cmd : list string) : bool := true.

(** A stretch of a trace with no sleep and no request for a contract list. *)
Definition quiet (t : list event) : bool :=
  forallb (fun e => match e with
                    | EvRun cmd => negb (is_code_request cmd)
                    | EvPrint _ => true
                    | EvSleep _ => false
                    end) t.

(** Pacing of a trace: every counted request but the first comes after at
    least [delay] seconds of sleep since the counted request before it.
    [since] is the time slept since the last counted request, if any. *)
Fixpoint paced_from (counted : list string -> bool) (delay : Q)
    (since : option Q) (t : list event) : bool :=
  match t with
  | [] => true
  | EvRun cmd :: t' =>
      if counted cmd then
        match since with
        | None => paced_from counted delay (Some 0%Q) t'
        | Some q => Qle_bool delay q && paced_from counted delay (Some 0%Q) t'
        end
      else paced_from counted delay since t'
  | EvSleep s :: t' =>
      paced_from counted delay (option_map (fun q => Qplus q s) since) t'
  | EvPrint _ :: t' => paced_from counted delay since t'
  end.

Definition paced (counted : list string -> bool) (delay : Q) (t : list event)
  : bool :=
  paced_from counted delay None t.

(** The bounded-failure policy of the design, read on a finished run: with
    a threshold, a run whose every request failed has made at most
    [threshold + 1] requests. *)
Definition within_error_budget (threshold : nat) (t : list event) : bool :=
  (List.length (runs_of t) <=? threshold + 1)%nat.

End Design.

(** ** The requests on the wire *)
Module Wire.

Definition api_root : string :=
  "https://rest.stargaze-apis.com/cosmwasm/wasm/v1/".

(** The command line that asks the service for the smart query of an
    address, written out: a silent [curl] GET that asks for JSON. The
    address is put between the two fixed parts of the URL as it is,
    without escaping. *)
Definition contract_request (address : string) : list string :=
  ["curl"; "-s"; "-X"; "GET";
   api_root ++ "contract/" ++ address ++ "/smart/eyJjb25maWciOnt9fQ==";
   "-H"; "accept: application/json"].

(** The command line that asks the service for one contract of a code
    ID, written out. *)
Definition code_request (code_id : Z) : list string :=
  ["curl"; "-s"; "-X"; "GET";
   api_root ++ "code/" ++ str_of_int code_id
     ++ "/contracts?pagination.limit=1";
   "-H"; "accept: application/json"].

End Wire.

(** ** Concrete worlds

    Small transports and a stub parser on which the scripts can be run. *)
Module Worlds.

(** The service answers every request with the same body. *)
Definition answering (body : string)
  : unit -> list string -> unit * (exn + CompletedProcess) :=
  fun _ _ => (tt, inr {| returncode := 0; stdout := body; stderr := "" |}).

(** The host cannot be reached: [curl -s] exits with status 7 and prints
    nothing. *)
Definition unreachable
  : unit -> list string -> unit * (exn + CompletedProcess) :=
  fun _ _ => (tt, inr {| returncode := 7; stdout := ""; stderr := "" |}).

(** The child process cannot be started: [subprocess.run] raises. *)
Definition failing : unit -> list string -> unit * (exn + CompletedProcess) :=
  fun _ _ => (tt, inl (Exn "FileNotFoundError" "No such file or directory: 'curl'")).

(** The world counts the requests made; the first [n] get a bech32
    failure, the later ones a config. *)
Definition accepting_after (n : nat)
  : nat -> list string -> nat * (exn + CompletedProcess) :=
  fun k _ =>
    (S k,
     inr {| returncode := 0;
            stdout := if (k <? n)%nat
                      then "decoding bech32 failed: invalid checksum"
                      else "config data";
            stderr := "" |}).

(** Every code ID has one contract, and every contract answers its config
    query. The body of a contract list is abbreviated to [LIST]. *)
Definition one_contract_each
  : nat -> list string -> nat * (exn + CompletedProcess) :=
  fun k cmd =>
    (S k,
     inr {| returncode := 0;
            stdout := if Design.is_code_request cmd then "LIST" else "metadata";
            stderr := "" |}).

Definition loads_stub (body : string) : exn + json :=
  if body =? "LIST"
  then inr (JDict [("contracts", JList [JStr "stars1abc"])])
  else inl (Exn "JSONDecodeError" "Expecting value: line 1 column 1 (char 0)").

Definition repr_stub (v : json) : string := type_name v.

(** Every code ID has a contract, and the output of every contract query
    cannot be decoded as text: [subprocess.run] raises for it. *)
Definition contract_queries_raise
  : nat -> list string -> nat * (exn + CompletedProcess) :=
  fun k cmd =>
    (S k,
     if Design.is_code_request cmd
     then inr {| returncode := 0; stdout := "LIST"; stderr := "" |}
     else inl (Exn "UnicodeDecodeError"
                 "'utf-8' codec can't decode byte 0xff in position 0")).

(** A parser that reads every body as the same value. *)
Definition loads_as (v : json) (body : string) : exn + json := inr v.

(** The contract list of every code ID names one string that is no
    address: it has path and query characters. *)
Definition loads_odd_name (body : string) : exn + json :=
  inr (JDict [("contracts", JList [JStr "../x?y=1"])]).

(** [n] times the character [x]. *)
Fixpoint filler (n : nat) : string :=
  match n with
  | O => ""
  | S n' => String "x" (filler n')
  end.

End Worlds.

(** ** Facts about strings *)
Module StrFacts.

Lemma prefix_app (p s : string) : String.prefix p (p ++ s) = true.
Proof.
  induction p as [|c p IH]; simpl.
  - now destruct s.
  - destruct (ascii_dec c c) as [_|ne]; [exact IH | now elim ne].
Qed.

Lemma prefix_split (p s : string) :
  String.prefix p s = true -> exists rest, s = p ++ rest.
Proof.
  revert s; induction p as [|c p IH]; intros s H.
  - now exists s.
  - destruct s as [|d s]; simpl in H; [discriminate|].
    destruct (ascii_dec c d) as [->|_]; [|discriminate].
    destruct (IH _ H) as [rest ->]. now exists rest.
Qed.

Lemma contains_unfold (sub s : string) :
  contains sub s
  = if String.prefix sub s then true
    else match s with
         | EmptyString => false
         | String _ s' => contains sub s'
         end.
Proof. destruct s; reflexivity. Qed.

(** [contains] is the substring relation. *)
Lemma contains_split (sub s : string) :
  contains sub s = true <-> exists a b, s = a ++ sub ++ b.
Proof.
  split.
  - induction s as [|c s IH]; intros H; rewrite contains_unfold in H.
    + destruct (String.prefix sub "") eqn:E; [|discriminate].
      destruct (prefix_split _ _ E) as [b Hb]. now exists "", b.
    + destruct (String.prefix sub (String c s)) eqn:E.
      * destruct (prefix_split _ _ E) as [b Hb]. now exists "", b.
      * destruct (IH H) as (a & b & ->). now exists (String c a), b.
  - intros (a & b & ->). induction a as [|c a IH].
    + simpl. rewrite contains_unfold, prefix_app. reflexivity.
    + change (String c a ++ sub ++ b) with (String c (a ++ sub ++ b)).
      rewrite contains_unfold, IH.
      now destruct (String.prefix sub (String c (a ++ sub ++ b))).
Qed.

Lemma contains_empty_body (sub : string) :
  sub <> "" -> contains sub "" = false.
Proof. destruct sub; [congruence | reflexivity]. Qed.

Lemma append_cancel_l (p s t : string) : p ++ s = p ++ t -> s = t.
Proof.
  induction p as [|c p IH]; simpl; intros H; [exact H|].
  injection H as H. now apply IH.
Qed.

Lemma append_assoc (s t u : string) : (s ++ t) ++ u = s ++ t ++ u.
Proof. induction s; simpl; congruence. Qed.

Lemma length_list_ascii (s : string) :
  List.length (list_ascii_of_string s) = String.length s.
Proof. induction s; simpl; congruence. Qed.

Lemma list_ascii_app (s t : string) :
  list_ascii_of_string (s ++ t)
  = (list_ascii_of_string s ++ list_ascii_of_string t)%list.
Proof. induction s; simpl; congruence. Qed.

(** [str(i)] reads back as [i]: the rendering is the canonical decimal. *)
Lemma str_of_int_reads_back (z : Z) :
  option_map Z.of_int (NilZero.int_of_string (str_of_int z)) = Some z.
Proof.
  unfold str_of_int. rewrite NilZero.isi.
  - simpl. now rewrite DecimalZ.of_to.
  - destruct z; simpl; try discriminate.
    intros H; injection H as H. now apply DecimalPos.Unsigned.to_uint_nonnil in H.
  - destruct z; simpl; try discriminate.
    intros H; injection H as H. now apply DecimalPos.Unsigned.to_uint_nonnil in H.
Qed.

Lemma str_of_int_inj (a b : Z) : str_of_int a = str_of_int b -> a = b.
Proof.
  intros H. pose proof (str_of_int_reads_back a) as Ha.
  rewrite H, str_of_int_reads_back in Ha. congruence.
Qed.

End StrFacts.

(** ** Facts about traces *)
Module TraceFacts.

Lemma runs_of_app (s t : list event) :
  runs_of (s ++ t) = (runs_of s ++ runs_of t)%list.
Proof.
  induction s as [|[cmd|line|secs] s IH]; simpl; congruence.
Qed.

Lemma prints_of_app (s t : list event) :
  prints_of (s ++ t) = (prints_of s ++ prints_of t)%list.
Proof.
  induction s as [|[cmd|line|secs] s IH]; simpl; congruence.
Qed.

Lemma sleeps_of_app (s t : list event) :
  sleeps_of (s ++ t) = (sleeps_of s ++ sleeps_of t)%list.
Proof. induction s as [|[cmd|line|secs] s IH]; simpl; congruence. Qed.

(** A trace made of requests only. *)
Lemma runs_of_requests {A : Type} (f : A -> list string) (l : list A) :
  runs_of (map (fun a => EvRun (f a)) l) = map f l.
Proof. induction l as [|a l IH]; cbn [map runs_of]; congruence. Qed.

Lemma prints_of_requests {A : Type} (f : A -> list string) (l : list A) :
  prints_of (map (fun a => EvRun (f a)) l) = [].
Proof. induction l as [|a l IH]; cbn [map prints_of]; congruence. Qed.

End TraceFacts.

(** ** find_addr.py: the verifier and the loop *)
Module AddrFacts.
Import FindAddr StrFacts TraceFacts.

Section Run.
Context {W : Type}.
Variable subprocess_run : W -> list string -> W * (exn + CompletedProcess).
Variable parts : string * string.

Local Abbreviation check := (check_address subprocess_run parts).
Local Abbreviation loop := (for_c_in subprocess_run parts).

(** [check_address] in one equation: one request, and a match exactly when
    the child process returned and its output lacks the bech32 marker. *)
Lemma check_address_eq (char : string) (w : W) :
  check char w =
  let addr := address parts char in
  match subprocess_run w (query addr) with
  | (w', inl _) => (w', [EvRun (query addr)], inr false)
  | (w', inr res) =>
      if contains "decoding bech32 failed" (stdout res)
      then (w', [EvRun (query addr)], inr false)
      else (w', (EvRun (query addr) :: found_report addr (stdout res))%list,
            inr true)
  end.
Proof.
  unfold check_address, bind, try_except, run, query; simpl.
  destruct (subprocess_run w _) as [w' [e|res]]; simpl; [reflexivity|].
  destruct (contains _ (stdout res)); reflexivity.
Qed.

Lemma check_address_total (char : string) (w : W) :
  exists w' t b, check char w = (w', t, inr b)
                 /\ runs_of t = [query (address parts char)].
Proof.
  rewrite check_address_eq; simpl.
  destruct (subprocess_run w _) as [w' [e|res]]; [now eauto|].
  destruct (contains _ (stdout res)); now eauto.
Qed.

Lemma for_c_in_cons (c : ascii) (cs : string) (w : W) :
  loop (String c cs) w =
  match check (String c "") w with
  | (w1, t1, inr true) => (w1, t1, inr true)
  | (w1, t1, inr false) =>
      match loop cs w1 with
      | (w2, t2, r) => (w2, (t1 ++ t2)%list, r)
      end
  | (w1, t1, inl e) => (w1, t1, inl e)
  end.
Proof.
  simpl; unfold bind.
  destruct (check (String c "") w) as [[w1 t1] [e|[|]]]; try reflexivity.
  unfold ret. now rewrite app_nil_r.
Qed.

(** The loop never raises, and its requests are the candidates it reached,
    in order: all of them when it was not left by [break]. *)
Lemma loop_requests (cs : string) (w : W) :
  exists w' t hit n,
    loop cs w = (w', t, inr hit)
    /\ runs_of t = map query (firstn n (candidates cs parts))
    /\ (n <= String.length cs)%nat
    /\ (hit = false -> n = String.length cs).
Proof.
  revert w; induction cs as [|c cs IH]; intros w.
  - exists w, [], false, 0%nat. repeat split; reflexivity.
  - rewrite for_c_in_cons.
    destruct (check_address_total (String c "") w) as (w1 & t1 & b & E & R).
    rewrite E. destruct b.
    + exists w1, t1, true, 1%nat. rewrite R. simpl.
      repeat split; [lia | discriminate].
    + destruct (IH w1) as (w2 & t2 & hit & n & E2 & R2 & Hn & Hall).
      rewrite E2. exists w2, (t1 ++ t2)%list, hit, (S n).
      rewrite runs_of_app, R, R2. simpl.
      repeat split; [lia | intros H; f_equal; auto].
Qed.

(** Splitting the loop at the first match. *)
Lemma loop_break_at (pre : string) (c : ascii) (post : string)
    (w w1 w2 : W) (t1 t2 : list event) :
  loop pre w = (w1, t1, inr false) ->
  check (String c "") w1 = (w2, t2, inr true) ->
  loop (pre ++ String c post) w = (w2, (t1 ++ t2)%list, inr true).
Proof.
  revert w t1; induction pre as [|p pre IH]; intros w t1 Hpre Hc.
  - simpl in Hpre. injection Hpre as <- <-.
    change ("" ++ String c post) with (String c post).
    now rewrite for_c_in_cons, Hc.
  - change (String p pre ++ String c post) with (String p (pre ++ String c post)).
    rewrite for_c_in_cons in *.
    destruct (check (String p "") w) as [[wa ta] [e|[|]]]; try discriminate.
    destruct (loop pre wa) as [[wb tb] r] eqn:E.
    injection Hpre as -> <- ->.
    rewrite (IH wa tb E Hc). now rewrite app_assoc.
Qed.

(** A loop over candidates that are all rejected runs to the end: no
    [break], and one request per candidate. *)
Lemma loop_all_rejected (cs : string) (w : W) :
  (forall w' c, In c (list_ascii_of_string cs) ->
                snd (check (String c "") w') = inr false) ->
  exists w' t, loop cs w = (w', t, inr false)
               /\ runs_of t = map query (candidates cs parts).
Proof.
  intros H.
  assert (Hend : exists w' t, loop cs w = (w', t, inr false)).
  { revert w; induction cs as [|c cs IH]; intros w.
    - now exists w, [].
    - rewrite for_c_in_cons.
      pose proof (H w c (or_introl eq_refl)) as Hc.
      destruct (check (String c "") w) as [[w1 t1] r]; simpl in Hc; subst r.
      destruct IH with (w := w1) as (w2 & t2 & E);
        [intros; apply H; now right|].
      rewrite E. now eauto. }
  destruct Hend as (w1 & t & E).
  destruct (loop_requests cs w) as (w1' & t' & hit & n & E' & R & _ & Hall).
  rewrite E in E'. injection E' as <- <- <-.
  exists w1, t. split; [exact E|].
  rewrite R, (Hall eq_refl), firstn_all2; [reflexivity|].
  unfold candidates. rewrite length_map, length_list_ascii. lia.
Qed.

End Run.
End AddrFacts.

(** ** find_marketplace.py: one scan and the loop *)
Module ScanFacts.
Import FindMarketplace Design StrFacts TraceFacts.

Lemma code_request_curl_code (code_id : string) :
  is_code_request (curl (code_url code_id)) = true.
Proof.
  exact (prefix_app "https://rest.stargaze-apis.com/cosmwasm/wasm/v1/code/"
           (code_id ++ "/contracts?pagination.limit=1")).
Qed.

Lemma code_request_curl_contract (addr : string) :
  is_code_request (curl (contract_url addr)) = false.
Proof. reflexivity. Qed.

Lemma paced_from_quiet (delay : Q) (since : option Q) (mid t : list event) :
  quiet mid = true ->
  paced_from is_code_request delay since (mid ++ t)
  = paced_from is_code_request delay since t.
Proof.
  induction mid as [|[cmd|line|secs] mid IH]; simpl; intros H;
    try discriminate; try (now apply IH); try reflexivity.
  apply andb_prop in H as [Hc Hq].
  apply negb_true_iff in Hc. rewrite Hc. now apply IH.
Qed.

Lemma code_requests_quiet (mid : list event) :
  quiet mid = true -> filter is_code_request (runs_of mid) = [].
Proof.
  induction mid as [|[cmd|line|secs] mid IH]; simpl; intros H;
    try discriminate; try (now apply IH); try reflexivity.
  apply andb_prop in H as [Hc Hq].
  apply negb_true_iff in Hc. rewrite Hc. now apply IH.
Qed.

(** The pacing test tells a missing or a short sleep from a full one. *)
Example paced_needs_sleep :
  paced is_code_request (1 # 2)
    [EvRun (curl (code_url "1")); EvRun (curl (code_url "2"))] = false
  /\ paced is_code_request (1 # 2)
       [EvRun (curl (code_url "1")); EvSleep (1 # 4);
        EvRun (curl (code_url "2"))] = false
  /\ paced is_code_request (1 # 2)
       [EvRun (curl (code_url "1")); EvSleep (1 # 4); EvSleep (1 # 4);
        EvRun (curl (code_url "2"))] = true.
Proof. repeat split. Qed.

Lemma sleeps_of_quiet (mid : list event) :
  quiet mid = true -> sleeps_of mid = [].
Proof.
  induction mid as [|[cmd|line|secs] mid IH]; simpl; intros H;
    try discriminate; try reflexivity; try (now apply IH).
  apply andb_prop in H as [_ H]. now apply IH.
Qed.

Section Run.
Context {W : Type}.
Variable subprocess_run : W -> list string -> W * (exn + CompletedProcess).
Variable json_loads : string -> exn + json.
Variable repr : json -> string.

Local Abbreviation check := (check_contract subprocess_run repr).
Local Abbreviation scan := (scan_code_id subprocess_run json_loads repr).
Local Abbreviation loop := (for_i_in subprocess_run json_loads repr).
Local Abbreviation cquery := (contract_query repr).

(** [check_contract] in one equation: one request, and a report exactly
    when the output has the substring [data]. *)
Lemma check_contract_eq (addr : json) (w : W) :
  check addr w =
  match subprocess_run w (cquery addr) with
  | (w', inl _) => (w', [EvRun (cquery addr)], inr tt)
  | (w', inr res) =>
      if contains "data" (stdout res)
      then (w', [EvRun (cquery addr);
                 EvPrint (config_line repr addr (stdout res))], inr tt)
      else (w', [EvRun (cquery addr)], inr tt)
  end.
Proof.
  unfold check_contract, bind, try_except, run, contract_query; simpl.
  destruct (subprocess_run w _) as [w' [e|res]]; simpl; [reflexivity|].
  destruct (contains _ (stdout res)); reflexivity.
Qed.

(** [scan_code_id] in one equation. *)
Lemma scan_code_id_eq (i : Z) (w : W) :
  scan i w =
  let start := [EvPrint (scanning_line i); EvRun (code_query i)] in
  match subprocess_run w (code_query i) with
  | (w1, inl e) => (w1, (start ++ [EvPrint (error_line i e)])%list, inr tt)
  | (w1, inr res) =>
      match first_contract json_loads (stdout res) with
      | inl e => (w1, (start ++ [EvPrint (error_line i e)])%list, inr tt)
      | inr None => (w1, start, inr tt)
      | inr (Some addr) =>
          match check addr w1 with
          | (w2, t2, r) =>
              (w2, (start ++ EvPrint (contract_line repr i addr) :: t2)%list, r)
          end
      end
  end.
Proof.
  unfold scan_code_id, first_contract, bind, try_except, run, lift, print,
    code_query; simpl.
  destruct (subprocess_run w _) as [w1 [e|res]]; simpl; [reflexivity|].
  destruct (json_loads (stdout res)) as [e|data]; simpl; [reflexivity|].
  destruct (dict_get data "contracts" (JList [])) as [e|contracts]; simpl;
    [reflexivity|].
  destruct (truthy contracts); simpl; [|reflexivity].
  destruct (getitem0 contracts) as [e|addr]; simpl; [reflexivity|].
  rewrite check_contract_eq.
  destruct (subprocess_run w1 _) as [w2 [e|res2]]; simpl; [reflexivity|].
  destruct (contains "data" (stdout res2)); reflexivity.
Qed.

Lemma check_contract_shape (addr : json) (w : W) :
  exists w' t, check addr w = (w', t, inr tt)
               /\ runs_of t = [cquery addr] /\ quiet t = true.
Proof.
  rewrite check_contract_eq.
  destruct (subprocess_run w _) as [w' [e|res]]; [now eauto|].
  destruct (contains _ (stdout res)); now eauto.
Qed.

(** One scan never raises; it starts with the line and the request for the
    contract list, and what follows is quiet and has at most one request. *)
Lemma scan_shape (i : Z) (w : W) :
  exists w' mid,
    scan i w
    = (w', (EvPrint (scanning_line i) :: EvRun (code_query i) :: mid)%list,
       inr tt)
    /\ quiet mid = true
    /\ (List.length (runs_of mid) <= 1)%nat.
Proof.
  rewrite scan_code_id_eq; simpl.
  destruct (subprocess_run w _) as [w1 [e|res]]; simpl.
  - exists w1, [EvPrint (error_line i e)]. now repeat split; auto.
  - destruct (first_contract json_loads (stdout res)) as [e|[addr|]].
    + exists w1, [EvPrint (error_line i e)]. now repeat split; auto.
    + destruct (check_contract_shape addr w1) as (w2 & t2 & E & R & Q).
      rewrite E. exists w2, (EvPrint (contract_line repr i addr) :: t2).
      simpl. rewrite R, Q. now repeat split; auto.
    + exists w1, []. now repeat split; auto.
Qed.

(** The requests of one scan: the contract list, then the contract the
    body leads to, if any. *)
Lemma scan_requests (i : Z) (w : W) :
  exists w' t,
    scan i w = (w', t, inr tt)
    /\ runs_of t
       = code_query i
         :: match subprocess_run w (code_query i) with
            | (_, inr res) =>
                match first_contract json_loads (stdout res) with
                | inr (Some addr) => [cquery addr]
                | _ => []
                end
            | (_, inl _) => []
            end.
Proof.
  rewrite scan_code_id_eq; simpl.
  destruct (subprocess_run w _) as [w1 [e|res]]; simpl; [now eauto|].
  destruct (first_contract json_loads (stdout res)) as [e|[addr|]];
    [now eauto | | now eauto].
  destruct (check_contract_shape addr w1) as (w2 & t2 & E & R & _).
  rewrite E. eexists _, _. split; [reflexivity|]. simpl. now rewrite R.
Qed.

Lemma for_i_in_cons (i : Z) (ids : list Z) (w : W) :
  loop (i :: ids) w =
  match scan i w with
  | (w1, t1, inl e) => (w1, t1, inl e)
  | (w1, t1, inr _) =>
      match loop ids w1 with
      | (w2, t2, r) => (w2, (t1 ++ EvSleep (1 # 2) :: t2)%list, r)
      end
  end.
Proof.
  simpl; unfold bind, sleep.
  destruct (scan i w) as [[w1 t1] [e|[]]]; [reflexivity|].
  now destruct (loop ids w1) as [[w2 t2] r].
Qed.

(** The loop has no early exit: whatever the service answers, it ends
    normally after asking for the contract list of every ID, in order. *)
Lemma loop_scans_all (ids : list Z) (w : W) :
  exists w' t,
    loop ids w = (w', t, inr tt)
    /\ filter is_code_request (runs_of t) = map code_query ids.
Proof.
  revert w; induction ids as [|i ids IH]; intros w.
  - now exists w, [].
  - rewrite for_i_in_cons.
    destruct (scan_shape i w) as (w1 & mid & E & Q & _). rewrite E.
    destruct (IH w1) as (w2 & t2 & E2 & R2). rewrite E2.
    eexists _, _. split; [reflexivity|].
    simpl. unfold code_query at 1. rewrite code_request_curl_code.
    rewrite runs_of_app, filter_app, (code_requests_quiet _ Q).
    simpl. now rewrite R2.
Qed.

(** Between the requests for two contract lists the loop sleeps half a
    second. *)
Lemma loop_paced (ids : list Z) (w : W) (since : option Q) :
  since = None \/ since = Some (0 + (1 # 2))%Q ->
  paced_from is_code_request (1 # 2) since (snd (fst (loop ids w))) = true.
Proof.
  revert w since; induction ids as [|i ids IH]; intros w since Hs.
  - reflexivity.
  - rewrite for_i_in_cons.
    destruct (scan_shape i w) as (w1 & mid & E & Q & _). rewrite E.
    specialize (IH w1 (Some (0 + (1 # 2))%Q) (or_intror eq_refl)).
    destruct (loop ids w1) as [[w2 t2] r]. simpl in IH |- *.
    unfold code_query at 1. rewrite code_request_curl_code.
    assert (Hmid : paced_from is_code_request (1 # 2) (Some 0%Q)
                     (mid ++ EvSleep (1 # 2) :: t2) = true).
    { rewrite paced_from_quiet by exact Q. exact IH. }
    destruct Hs as [-> | ->]; [exact Hmid|].
    rewrite Hmid. reflexivity.
Qed.

(** Nothing is slept inside one scan. *)
Lemma scan_never_sleeps (i : Z) (w : W) :
  sleeps_of (snd (fst (scan i w))) = [].
Proof.
  destruct (scan_shape i w) as (w' & mid & E & Q & _).
  rewrite E. simpl. now apply sleeps_of_quiet.
Qed.

(** The loop sleeps half a second once per code ID. *)
Lemma loop_sleeps (ids : list Z) (w : W) :
  sleeps_of (snd (fst (loop ids w))) = repeat (1 # 2) (List.length ids).
Proof.
  revert w; induction ids as [|i ids IH]; intros w; [reflexivity|].
  rewrite for_i_in_cons.
  pose proof (scan_never_sleeps i w) as Hscan.
  destruct (scan_shape i w) as (w1 & mid & E & _). rewrite E in Hscan |- *.
  specialize (IH w1). destruct (loop ids w1) as [[w2 t2] r].
  cbn [fst snd] in *. rewrite sleeps_of_app, Hscan. simpl. now rewrite IH.
Qed.

End Run.
End ScanFacts.

(** ** Python's [range] with a positive step *)
Module RangeFacts.
Import Design.

Lemma ceil_div_floor (a b : Z) :
  (0 < b)%Z -> ceil_div a b = ((a + b - 1) / b)%Z.
Proof.
  intros Hb. unfold ceil_div.
  pose proof (Z.div_mod (- a) b ltac:(lia)) as E1.
  pose proof (Z.mod_pos_bound (- a) b Hb) as B1.
  pose proof (Z.div_mod (a + b - 1) b ltac:(lia)) as E2.
  pose proof (Z.mod_pos_bound (a + b - 1) b Hb) as B2.
  nia.
Qed.

(** The length CPython computes is the ceiling of the span over the step. *)
Lemma range_len_ceil (lo hi step : Z) :
  (0 < step)%Z ->
  range_len lo hi step = Z.max 0 (ceil_div (hi - lo) step).
Proof.
  intros Hs. unfold range_len. rewrite ceil_div_floor by exact Hs.
  destruct (Z.ltb_spec lo hi) as [H|H].
  - replace (hi - lo + step - 1)%Z with ((hi - 1 - lo) + 1 * step)%Z by lia.
    rewrite Z.div_add by lia.
    pose proof (Z.div_pos (hi - 1 - lo) step ltac:(lia) Hs). lia.
  - assert ((hi - lo + step - 1) / step <= 0)%Z; [|lia].
    assert ((hi - lo + step - 1) / step < 1)%Z; [|lia].
    apply Z.div_lt_upper_bound; lia.
Qed.

Lemma range_pos_step (start stop step : Z) :
  (0 < step)%Z ->
  range start stop step
  = map (fun k => (start + Z.of_nat k * step)%Z)
      (seq 0 (Z.to_nat (range_len start stop step))).
Proof.
  intros Hs. unfold range.
  destruct (Z.ltb_spec 0 step); [reflexivity | lia].
Qed.

Lemma affine_seq_sorted (start step : Z) (m n : nat) :
  (0 < step)%Z ->
  Sorted.StronglySorted Z.lt
    (map (fun k => (start + Z.of_nat k * step)%Z) (seq m n)).
Proof.
  intros Hs. revert m; induction n as [|n IH]; intros m; simpl.
  - constructor.
  - constructor; [apply IH|].
    apply Forall_forall. intros x Hx.
    apply in_map_iff in Hx as (k & <- & Hk). apply in_seq in Hk. nia.
Qed.

Lemma range_len_nonneg (lo hi step : Z) :
  (0 < step)%Z -> (0 <= range_len lo hi step)%Z.
Proof. intros Hs. rewrite range_len_ceil by exact Hs. lia. Qed.

(** Membership: the items are the numbers [start + k * step] below [stop]. *)
Lemma range_In (start stop step x : Z) :
  (0 < step)%Z ->
  In x (range start stop step)
  <-> (start <= x < stop)%Z /\ ((x - start) mod step = 0)%Z.
Proof.
  intros Hs. rewrite range_pos_step by exact Hs. unfold range_len.
  rewrite in_map_iff. split.
  - intros (k & <- & Hk). apply in_seq in Hk.
    destruct (Z.ltb_spec start stop) as [H|H]; [|simpl in Hk; lia].
    pose proof (Z.div_pos (stop - 1 - start) step ltac:(lia) Hs) as Hq.
    pose proof (Z.mul_div_le (stop - 1 - start) step Hs) as Hle.
    replace (start + Z.of_nat k * step - start)%Z with (Z.of_nat k * step)%Z
      by lia.
    rewrite Z.mod_mul by lia. split; [|reflexivity]. nia.
  - intros ([Hlo Hhi] & Hmod).
    apply Z.mod_divide in Hmod; [|lia]. destruct Hmod as [q Hq].
    assert (0 <= q)%Z by nia.
    exists (Z.to_nat q). split; [rewrite Z2Nat.id by lia; lia|].
    apply in_seq. split; [lia|].
    destruct (Z.ltb_spec start stop) as [H'|H']; [|lia].
    assert (q <= (stop - 1 - start) / step)%Z.
    { apply Z.div_le_lower_bound; [exact Hs | nia]. }
    lia.
Qed.

Example range_samples :
  range 1 10 3 = [1; 4; 7]%Z /\ range 5 2 1 = [] /\ range 10 1 (-3) = [10; 7; 4]%Z
  /\ List.length (range 1 100 1) = 99%nat.
Proof. repeat split. Qed.

End RangeFacts.

(** ** The claims *)
Module Claims.
Import FindAddr FindMarketplace Design Worlds.
Import StrFacts TraceFacts AddrFacts ScanFacts RangeFacts.

Lemma candidates_app (pre post : string) (parts : string * string) :
  candidates (pre ++ post) parts
  = (candidates pre parts ++ candidates post parts)%list.
Proof. unfold candidates. now rewrite list_ascii_app, map_app. Qed.

Lemma address_inj (parts : string * string) (c d : ascii) :
  address parts (String c "") = address parts (String d "") -> c = d.
Proof.
  unfold address. intros H. apply append_cancel_l in H.
  simpl in H. congruence.
Qed.

(** C1 as stated fails in both scripts. A body with the bech32 marker and
    the substring [data] is Invalid by the three-step rule, whatever the
    parser, and [check_contract] reports it. The empty body, which no
    parser turns into a mapping, is NoMatch by the rule, and
    [check_address] reports it as a match. *)
Lemma three_step_rule_not_followed :
  (forall json_loads,
     three_step_rule json_loads "decoding bech32 failed: invalid data"
     = Invalid)
  /\ check_contract (answering "decoding bech32 failed: invalid data")
       repr_stub (JStr "stars1abc") tt
     = (tt,
        [EvRun (contract_query repr_stub (JStr "stars1abc"));
         EvPrint "Contract stars1abc Config: decoding bech32 failed: invalid data"],
        inr tt)
  /\ (forall json_loads e,
        json_loads "" = inl e -> three_step_rule json_loads "" = NoMatch)
  /\ check_address (answering "") base_addr_parts "q" tt
     = (tt,
        (EvRun (query (address base_addr_parts "q"))
           :: found_report (address base_addr_parts "q") "")%list,
        inr true).
Proof.
  repeat apply conj; try reflexivity.
  intros json_loads e H. unfold three_step_rule. simpl. now rewrite H.
Qed.

(** C1, as amended. Classification is by substring, without parsing. In
    the address script a returned body is a match, printed with the body
    as payload, exactly when it lacks the substring "decoding bech32
    failed". In the scan script a returned contract body is reported, with
    its first 200 characters, exactly when it has the substring "data";
    the bech32 marker is not looked for there. *)
Theorem classification_by_substring
    (W : Type) (subprocess_run : W -> list string -> W * (exn + CompletedProcess))
    (repr : json -> string) (parts : string * string) :
  (forall char w w' res,
     subprocess_run w (query (address parts char)) = (w', inr res) ->
     check_address subprocess_run parts char w
     = (w',
        (EvRun (query (address parts char))
           :: if contains "decoding bech32 failed" (stdout res) then []
              else found_report (address parts char) (stdout res))%list,
        inr (negb (contains "decoding bech32 failed" (stdout res)))))
  /\ (forall addr w w' res,
        subprocess_run w (contract_query repr addr) = (w', inr res) ->
        check_contract subprocess_run repr addr w
        = (w',
           (EvRun (contract_query repr addr)
              :: if contains "data" (stdout res)
                 then [EvPrint (config_line repr addr (stdout res))]
                 else [])%list,
           inr tt)).
Proof.
  split.
  - intros char w w' res H. rewrite check_address_eq. simpl. rewrite H.
    now destruct (contains _ (stdout res)).
  - intros addr w w' res H. rewrite check_contract_eq, H.
    now destruct (contains _ (stdout res)).
Qed.

Lemma classification_by_substring_samples :
  check_address (answering "metadata") base_addr_parts "q" tt
  = (tt,
     (EvRun (query (address base_addr_parts "q"))
        :: found_report (address base_addr_parts "q") "metadata")%list,
     inr true)
  /\ check_contract (answering "not found") repr_stub (JStr "stars1abc") tt
     = (tt, [EvRun (contract_query repr_stub (JStr "stars1abc"))], inr tt).
Proof.
  destruct (classification_by_substring unit (answering "metadata") repr_stub
              base_addr_parts) as [Haddr _].
  destruct (classification_by_substring unit (answering "not found") repr_stub
              base_addr_parts) as [_ Hscan].
  split.
  - exact (Haddr "q" tt tt _ eq_refl).
  - exact (Hscan (JStr "stars1abc") tt tt _ eq_refl).
Defined.

(** C2, as amended. In the address script, when the candidates before [c]
    were all rejected and [c] is classified as a match, the loop is left by
    [break] with the match of [c] and its response printed last, and the
    requests made are those of the candidates up to [c] and no later one.
    The scan script has no early exit: whatever is matched, it asks for
    the contract list of every code ID. *)
Theorem first_match_wins
    (W : Type) (subprocess_run : W -> list string -> W * (exn + CompletedProcess))
    (json_loads : string -> exn + json) (repr : json -> string)
    (parts : string * string) (pre : string) (c : ascii) (post : string)
    (ids : list Z) (w w1 w2 ws : W) (t1 t2 : list event) :
  for_c_in subprocess_run parts pre w = (w1, t1, inr false) ->
  check_address subprocess_run parts (String c "") w1 = (w2, t2, inr true) ->
  (exists res,
     subprocess_run w1 (query (address parts (String c ""))) = (w2, inr res)
     /\ for_c_in subprocess_run parts (pre ++ String c post) w
        = (w2,
           (t1 ++ EvRun (query (address parts (String c "")))
               :: found_report (address parts (String c "")) (stdout res))%list,
           inr true)
     /\ runs_of (t1 ++ t2)
        = map query (candidates (pre ++ String c "") parts))
  /\ (exists w' t,
        for_i_in subprocess_run json_loads repr ids ws = (w', t, inr tt)
        /\ filter is_code_request (runs_of t) = map code_query ids).
Proof.
  intros Hpre Hc. split.
  - pose proof (loop_break_at subprocess_run parts pre c post w w1 w2 t1 t2
                  Hpre Hc) as Hloop.
    destruct (loop_requests subprocess_run parts pre w)
      as (w1' & t1' & hit & n & E & R & _ & Hall).
    rewrite Hpre in E. injection E as <- <- <-.
    assert (R1 : runs_of t1 = map query (candidates pre parts)).
    { rewrite R, (Hall eq_refl), firstn_all2; [reflexivity|].
      unfold candidates. rewrite length_map, length_list_ascii. lia. }
    rewrite check_address_eq in Hc. simpl in Hc.
    destruct (subprocess_run w1 _) as [w2' [e|res]]; [discriminate|].
    destruct (contains _ (stdout res)); [discriminate|].
    injection Hc as <- <-. exists res.
    repeat apply conj; [reflexivity | exact Hloop |].
    rewrite runs_of_app, R1, candidates_app, map_app. reflexivity.
  - exact (loop_scans_all subprocess_run json_loads repr ids ws).
Qed.

Lemma first_match_wins_third_symbol :
  (exists res,
     accepting_after 2 2%nat (query (address base_addr_parts "z"))
     = (3%nat, inr res)
     /\ for_c_in (accepting_after 2) base_addr_parts
          ("qp" ++ String "z" "ry9x8gf2tvdw0s3jn54khce6mua7l") 0%nat
        = (3%nat,
           (snd (fst (for_c_in (accepting_after 2) base_addr_parts "qp" 0%nat))
              ++ EvRun (query (address base_addr_parts "z"))
              :: found_report (address base_addr_parts "z") (stdout res))%list,
           inr true)
     /\ runs_of
          (snd (fst (for_c_in (accepting_after 2) base_addr_parts "qp" 0%nat))
             ++ snd (fst (check_address (accepting_after 2) base_addr_parts
                            "z" 2%nat)))
        = map query (candidates ("qp" ++ "z") base_addr_parts))
  /\ (exists w' t,
        for_i_in (accepting_after 2) loads_stub repr_stub (range 1 100 1) 3%nat
        = (w', t, inr tt)
        /\ filter is_code_request (runs_of t)
           = map code_query (range 1 100 1)).
Proof.
  exact (first_match_wins nat (accepting_after 2) loads_stub repr_stub
           base_addr_parts "qp" "z"%char "ry9x8gf2tvdw0s3jn54khce6mua7l"
           (range 1 100 1) 0%nat 2%nat 3%nat 3%nat _ _ eq_refl eq_refl).
Defined.

(** C2 as stated fails on the scan script: with a contract that matches at
    code ID 1, the config is printed and the scan goes on with code ID 2,
    up to all 99 contract-list requests. *)
Lemma scan_continues_after_match :
  let t := snd (fst (FindMarketplace.main one_contract_each loads_stub
                       repr_stub 0%nat)) in
  nth_error t 4 = Some (EvPrint "Contract stars1abc Config: metadata")
  /\ nth_error t 6 = Some (EvPrint "Scanning Code ID 2...")
  /\ nth_error t 7 = Some (EvRun (code_query 2))
  /\ List.length (filter is_code_request (runs_of t)) = 99%nat.
Proof. vm_compute. repeat split. Qed.

(** C3 as stated fails: the scripts have no failure counter and no abort.
    With a transport that raises on every request, the scan script ends
    normally after 99 failed requests and the address script ends without
    a match after 32; a budget of 3 consecutive failures is exceeded in
    both. *)
Lemma no_abort_on_transport_errors :
  let scan := FindMarketplace.main failing loads_stub repr_stub tt in
  let addr := FindAddr.script failing tt in
  snd scan = inr tt
  /\ List.length (runs_of (snd (fst scan))) = 99%nat
  /\ within_error_budget 3 (snd (fst scan)) = false
  /\ snd addr = inr false
  /\ List.length (runs_of (snd (fst addr))) = 32%nat
  /\ within_error_budget 3 (snd (fst addr)) = false.
Proof. vm_compute. repeat split. Qed.

(** C3, as amended. When every request raises, neither script aborts: the
    address loop swallows each error silently, its trace being the one
    request per candidate and nothing printed, and ends without a match;
    the scan loop prints one error line per code ID and ends normally
    after one request per code ID. The number of consecutive errors passed
    over is bounded by the length of the source only. *)
Theorem transport_errors_never_abort
    (W : Type) (subprocess_run : W -> list string -> W * (exn + CompletedProcess))
    (json_loads : string -> exn + json) (repr : json -> string)
    (parts : string * string) (sigma : string) (ids : list Z) (w ws : W) :
  (forall w' cmd, exists e, snd (subprocess_run w' cmd) = inl e) ->
  (exists w1 t,
     for_c_in subprocess_run parts sigma w = (w1, t, inr false)
     /\ runs_of t = map query (candidates sigma parts)
     /\ prints_of t = []
     /\ t = map (fun a => EvRun (query a)) (candidates sigma parts))
  /\ (exists w2 t errors,
        for_i_in subprocess_run json_loads repr ids ws = (w2, t, inr tt)
        /\ runs_of t = map code_query ids
        /\ List.length errors = List.length ids
        /\ prints_of t
           = flat_map (fun ie => [scanning_line (fst ie);
                                  error_line (fst ie) (snd ie)])
               (combine ids errors)).
Proof.
  intros Hraise. split.
  - assert (Htrace : exists w1,
              for_c_in subprocess_run parts sigma w
              = (w1, map (fun a => EvRun (query a)) (candidates sigma parts),
                 inr false)).
    { revert w. induction sigma as [|c sigma IH]; intros w.
      - now exists w.
      - rewrite for_c_in_cons, check_address_eq. simpl.
        destruct (Hraise w (query (address parts (String c "")))) as [e He].
        destruct (subprocess_run w _) as [w1 r]. simpl in He. subst r.
        destruct (IH w1) as [w2 E]. rewrite E. now exists w2. }
    destruct Htrace as [w1 E]. exists w1. eexists. split; [exact E|].
    repeat apply conj;
      [apply runs_of_requests | apply prints_of_requests | reflexivity].
  - revert ws. induction ids as [|i ids IH]; intros ws.
    + now exists ws, [], [].
    + rewrite for_i_in_cons, scan_code_id_eq. simpl.
      destruct (Hraise ws (code_query i)) as [e He].
      destruct (subprocess_run ws (code_query i)) as [w1 r]. simpl in He.
      subst r. destruct (IH w1) as (w2 & t & errors & E & R & L & P).
      rewrite E. exists w2. eexists. exists (e :: errors).
      split; [reflexivity|]. simpl. rewrite R, P, L. tauto.
Qed.

Lemma transport_errors_never_abort_failing :
  (exists w1 t,
     for_c_in failing base_addr_parts charset tt = (w1, t, inr false)
     /\ runs_of t = map query (candidates charset base_addr_parts)
     /\ prints_of t = []
     /\ t = map (fun a => EvRun (query a))
              (candidates charset base_addr_parts))
  /\ (exists w2 t errors,
        for_i_in failing loads_stub repr_stub (range 1 100 1) tt
        = (w2, t, inr tt)
        /\ runs_of t = map code_query (range 1 100 1)
        /\ List.length errors = List.length (range 1 100 1)
        /\ prints_of t
           = flat_map (fun ie => [scanning_line (fst ie);
                                  error_line (fst ie) (snd ie)])
               (combine (range 1 100 1) errors)).
Proof.
  apply (transport_errors_never_abort unit failing loads_stub repr_stub
           base_addr_parts charset (range 1 100 1) tt tt).
  intros w' cmd. eexists. reflexivity.
Defined.

(** C4. The character-completion source: for a charset, a prefix and a
    suffix, the loop draws its candidates from the list prefix + symbol +
    suffix over the symbols of the charset in charset order. The list has
    as many candidates as the charset has symbols, and distinct symbols
    give distinct candidates. In every run the requests are those of the
    first [n] candidates, in order, one each: all of them when the loop
    ends without a match, at least one when it breaks. When every
    candidate is rejected the requests are exactly those of the whole
    list; when the candidates before a symbol are rejected and that
    symbol matches, they are exactly those up to and including it. The
    bech32 alphabet of the script gives 32 candidates, all distinct. *)
Theorem candidate_source_complete
    (W : Type) (subprocess_run : W -> list string -> W * (exn + CompletedProcess))
    (sigma : string) (parts : string * string) (w : W) :
  let cand := fun c : ascii => fst parts ++ String c "" ++ snd parts in
  let source := map cand (list_ascii_of_string sigma) in
  let request := fun a : string => curl (contract_url a) in
  candidates sigma parts = source
  /\ List.length source = String.length sigma
  /\ (forall i,
        nth_error source i
        = option_map cand (nth_error (list_ascii_of_string sigma) i))
  /\ (NoDup (list_ascii_of_string sigma) -> NoDup source)
  /\ (exists w' t hit n,
        for_c_in subprocess_run parts sigma w = (w', t, inr hit)
        /\ runs_of t = map request (firstn n source)
        /\ (n <= String.length sigma)%nat
        /\ (hit = false -> n = String.length sigma)
        /\ (hit = true -> (1 <= n)%nat))
  /\ ((forall w' c, In c (list_ascii_of_string sigma) ->
         snd (check_address subprocess_run parts (String c "") w')
         = inr false) ->
      exists w' t,
        for_c_in subprocess_run parts sigma w = (w', t, inr false)
        /\ runs_of t = map request source)
  /\ (forall pre c post w1 t1 w2 t2,
        sigma = pre ++ String c post ->
        for_c_in subprocess_run parts pre w = (w1, t1, inr false) ->
        check_address subprocess_run parts (String c "") w1
        = (w2, t2, inr true) ->
        exists t,
          for_c_in subprocess_run parts sigma w = (w2, t, inr true)
          /\ runs_of t
             = map request (firstn (S (String.length pre)) source))
  /\ List.length (candidates charset base_addr_parts) = 32%nat
  /\ NoDup (candidates charset base_addr_parts).
Proof.
  intros cand source request.
  assert (Hsrc : candidates sigma parts = source) by reflexivity.
  assert (Hnd : NoDup (list_ascii_of_string sigma) -> NoDup source).
  { intros H. unfold source.
    apply NoDup_map_NoDup_ForallPairs; [|exact H].
    intros c d _ _ E. exact (address_inj parts c d E). }
  repeat apply conj.
  - exact Hsrc.
  - unfold source. now rewrite length_map, length_list_ascii.
  - intros i. unfold source. now rewrite nth_error_map.
  - exact Hnd.
  - destruct (loop_requests subprocess_run parts sigma w)
      as (w' & t & hit & n & E & R & Hn & Hall).
    exists w', t, hit, n. rewrite Hsrc in R.
    repeat apply conj; try assumption.
    intros ->. destruct n as [|n]; [|lia]. exfalso.
    simpl in R. destruct sigma as [|c sigma]; [discriminate|].
    rewrite for_c_in_cons in E.
    destruct (check_address_total subprocess_run parts (String c "") w)
      as (w1 & t1 & b & E1 & R1).
    rewrite E1 in E. destruct b.
    + injection E as _ <-. rewrite R1 in R. discriminate.
    + destruct (for_c_in subprocess_run parts sigma w1) as [[w2 t2] r].
      injection E as _ <- _. rewrite runs_of_app, R1 in R. discriminate.
  - intros Hrej.
    destruct (loop_all_rejected subprocess_run parts sigma w Hrej)
      as (w' & t & E & R).
    exists w', t. split; [exact E|]. now rewrite R, Hsrc.
  - intros pre c post w1 t1 w2 t2 Hsplit Hpre Hc.
    exists (t1 ++ t2)%list. split.
    + rewrite Hsplit.
      exact (loop_break_at subprocess_run parts pre c post w w1 w2 t1 t2
               Hpre Hc).
    + destruct (loop_requests subprocess_run parts pre w)
        as (w1' & t1' & hit & n & E & R & _ & Hall).
      rewrite Hpre in E. injection E as <- <- <-.
      destruct (check_address_total subprocess_run parts (String c "") w1)
        as (w2' & t2' & b & E2 & R2).
      rewrite Hc in E2. injection E2 as <- <- <-.
      rewrite runs_of_app, R, R2, (Hall eq_refl).
      rewrite <- Hsrc, Hsplit, candidates_app.
      assert (Hlen : List.length (candidates pre parts) = String.length pre).
      { unfold candidates. now rewrite length_map, length_list_ascii. }
      rewrite firstn_all2 by lia.
      replace (S (String.length pre))
        with (List.length (candidates pre parts) + 1)%nat by lia.
      rewrite firstn_app_2, map_app. reflexivity.
  - reflexivity.
  - unfold candidates.
    apply NoDup_map_NoDup_ForallPairs.
    + intros c d _ _ E. exact (address_inj base_addr_parts c d E).
    + repeat (constructor; [simpl; intuition discriminate|]). constructor.
Qed.

Lemma candidate_source_complete_two_symbols :
  NoDup (map (fun c : ascii => "x" ++ String c "" ++ "y")
           (list_ascii_of_string "ab"))
  /\ (exists w' t,
        for_c_in (answering "decoding bech32 failed") ("x", "y") "ab" tt
        = (w', t, inr false)
        /\ runs_of t = [curl (contract_url "xay"); curl (contract_url "xby")])
  /\ (exists t,
        for_c_in (accepting_after 1) ("x", "y") "ab" 0%nat
        = (2%nat, t, inr true)
        /\ runs_of t = [curl (contract_url "xay"); curl (contract_url "xby")]).
Proof.
  destruct (candidate_source_complete unit (answering "decoding bech32 failed")
              "ab" ("x", "y") tt)
    as (_ & _ & _ & Hnd & _ & Hall & _).
  destruct (candidate_source_complete nat (accepting_after 1)
              "ab" ("x", "y") 0%nat)
    as (_ & _ & _ & _ & _ & _ & Hfirst & _).
  repeat apply conj.
  - apply Hnd. repeat (constructor; [simpl; intuition discriminate|]).
    constructor.
  - apply Hall. intros w' c _. rewrite check_address_eq. reflexivity.
  - exact (Hfirst "a" "b"%char "" 1%nat _ 2%nat _ eq_refl eq_refl eq_refl).
Defined.

(** The script's [range(1, 100)] is the numeric source from 1 to 99. *)
Lemma main_source
    (W : Type) (subprocess_run : W -> list string -> W * (exn + CompletedProcess))
    (json_loads : string -> exn + json) (repr : json -> string) :
  FindMarketplace.main subprocess_run json_loads repr
  = for_i_in subprocess_run json_loads repr (numeric_source 1 99 1).
Proof. reflexivity. Qed.

(** C5 as stated fails on an empty range: from 5 to 1 with step 1 the
    source yields no candidate, while ceil((1 - 5 + 1) / 1) is -3. *)
Lemma empty_range_has_no_negative_count :
  numeric_source 5 1 1 = []
  /\ ceil_div (1 - 5 + 1) 1 = (-3)%Z
  /\ Z.of_nat (List.length (numeric_source 5 1 1)) <> ceil_div (1 - 5 + 1) 1.
Proof. repeat apply conj; [reflexivity | reflexivity | discriminate]. Qed.

(** C5, as amended. For a step of at least 1, the numeric source from
    [first] to [last] yields max(0, ceil((last - first + 1) / step))
    candidates, which is ceil((last - first + 1) / step) when
    [first <= last + 1] and none when the range is empty: the k-th is
    [first + k * step]; they are exactly the integers from [first] to
    [last] at a multiple of [step] from [first]; they come in strictly
    increasing order; the loop asks for each of them once, in this order,
    under its decimal rendering, which reads back as the integer. *)
Theorem numeric_source_enumerates
    (W : Type) (subprocess_run : W -> list string -> W * (exn + CompletedProcess))
    (json_loads : string -> exn + json) (repr : json -> string)
    (first last step : Z) (w : W) :
  (1 <= step)%Z ->
  let src := numeric_source first last step in
  Z.of_nat (List.length src) = Z.max 0 (ceil_div (last - first + 1) step)
  /\ ((first <= last + 1)%Z ->
      Z.of_nat (List.length src) = ceil_div (last - first + 1) step)
  /\ ((last + 1 < first)%Z -> src = [])
  /\ (forall k, (k < List.length src)%nat ->
        nth_error src k = Some (first + Z.of_nat k * step)%Z)
  /\ (forall x, In x src
                <-> (first <= x <= last)%Z /\ ((x - first) mod step = 0)%Z)
  /\ StronglySorted Z.lt src
  /\ (exists w' t,
        for_i_in subprocess_run json_loads repr src w = (w', t, inr tt)
        /\ filter is_code_request (runs_of t)
           = map (fun x => curl (code_url (str_of_int x))) src)
  /\ (forall x,
        option_map Z.of_int (NilZero.int_of_string (str_of_int x)) = Some x).
Proof.
  intros Hs src.
  assert (Hpos : (0 < step)%Z) by lia.
  assert (Hlen : List.length src = Z.to_nat (range_len first (last + 1) step)).
  { unfold src, numeric_source. rewrite range_pos_step by exact Hpos.
    now rewrite length_map, length_seq. }
  assert (Hceil : range_len first (last + 1) step
                  = Z.max 0 (ceil_div (last - first + 1) step)).
  { rewrite range_len_ceil by exact Hpos. do 2 f_equal. lia. }
  repeat apply conj.
  - rewrite Hlen, Hceil. lia.
  - intros Hne. rewrite Hlen, Hceil, Z2Nat.id by lia.
    rewrite ceil_div_floor by exact Hpos.
    pose proof (Z.div_pos (last - first + 1 + step - 1) step ltac:(lia) Hpos).
    lia.
  - intros Hempty. apply length_zero_iff_nil. rewrite Hlen.
    unfold range_len. destruct (Z.ltb_spec first (last + 1)); [lia|].
    reflexivity.
  - intros k Hk. unfold src, numeric_source in *.
    rewrite range_pos_step in * by exact Hpos.
    rewrite length_map, length_seq in Hk.
    rewrite nth_error_map, nth_error_seq.
    destruct (Nat.ltb_spec k (Z.to_nat (range_len first (last + 1) step)));
      [reflexivity | lia].
  - intros x. unfold src, numeric_source.
    rewrite range_In by exact Hpos. intuition lia.
  - unfold src, numeric_source. rewrite range_pos_step by exact Hpos.
    now apply affine_seq_sorted.
  - exact (loop_scans_all subprocess_run json_loads repr src w).
  - exact str_of_int_reads_back.
Qed.

Lemma numeric_source_enumerates_1_to_99 :
  let src := numeric_source 1 99 1 in
  Z.of_nat (List.length src) = Z.max 0 (ceil_div (99 - 1 + 1) 1)
  /\ ((1 <= 99 + 1)%Z ->
      Z.of_nat (List.length src) = ceil_div (99 - 1 + 1) 1)
  /\ ((99 + 1 < 1)%Z -> src = [])
  /\ (forall k, (k < List.length src)%nat ->
        nth_error src k = Some (1 + Z.of_nat k * 1)%Z)
  /\ (forall x, In x src
                <-> (1 <= x <= 99)%Z /\ ((x - 1) mod 1 = 0)%Z)
  /\ StronglySorted Z.lt src
  /\ (exists w' t,
        for_i_in one_contract_each loads_stub repr_stub src 0%nat
        = (w', t, inr tt)
        /\ filter is_code_request (runs_of t)
           = map (fun x => curl (code_url (str_of_int x))) src)
  /\ (forall x,
        option_map Z.of_int (NilZero.int_of_string (str_of_int x)) = Some x).
Proof.
  apply (numeric_source_enumerates nat one_contract_each loads_stub repr_stub
           1 99 1 0%nat).
  lia.
Defined.

(** C6. When every candidate is rejected (no match), the address loop
    ends without [break] after one request per candidate, in source order;
    the scan loop ends normally after one contract-list request per code
    ID, in source order, whatever the service answers. *)
Theorem all_rejected_exhausts
    (W : Type) (subprocess_run : W -> list string -> W * (exn + CompletedProcess))
    (json_loads : string -> exn + json) (repr : json -> string)
    (parts : string * string) (sigma : string) (ids : list Z) (w ws : W) :
  (forall w' c, In c (list_ascii_of_string sigma) ->
     snd (check_address subprocess_run parts (String c "") w') = inr false) ->
  (exists w1 t,
     for_c_in subprocess_run parts sigma w = (w1, t, inr false)
     /\ runs_of t = map query (candidates sigma parts))
  /\ (exists w2 t,
        for_i_in subprocess_run json_loads repr ids ws = (w2, t, inr tt)
        /\ filter is_code_request (runs_of t) = map code_query ids).
Proof.
  intros Hrej. split.
  - exact (loop_all_rejected subprocess_run parts sigma w Hrej).
  - exact (loop_scans_all subprocess_run json_loads repr ids ws).
Qed.

Lemma all_rejected_exhausts_bech32_failures :
  (exists w1 t,
     for_c_in (answering "decoding bech32 failed: invalid checksum")
       base_addr_parts charset tt = (w1, t, inr false)
     /\ runs_of t = map query (candidates charset base_addr_parts))
  /\ (exists w2 t,
        for_i_in (answering "decoding bech32 failed: invalid checksum")
          loads_stub repr_stub (range 1 100 1) tt = (w2, t, inr tt)
        /\ filter is_code_request (runs_of t)
           = map code_query (range 1 100 1)).
Proof.
  apply (all_rejected_exhausts unit
           (answering "decoding bech32 failed: invalid checksum")
           loads_stub repr_stub base_addr_parts charset (range 1 100 1) tt tt).
  intros w' c _. rewrite check_address_eq. reflexivity.
Defined.

(** C7 as stated fails in the address script. When the host cannot be
    reached, [curl -s] exits with status 7 and an empty output, and no
    exception is raised: the failure is reported as a match of the first
    candidate and the search stops there instead of moving on. *)
Lemma unreachable_host_reported_as_match :
  transport_failed
    (snd (unreachable tt (query (address base_addr_parts "q")))) = true
  /\ FindAddr.script unreachable tt
     = (tt,
        [EvPrint "Brute forcing address...";
         EvRun (query (address base_addr_parts "q"));
         EvPrint ("FOUND MATCH: " ++ address base_addr_parts "q");
         EvPrint "Response: "],
        inr true).
Proof. split; reflexivity. Qed.

(** C7, as amended. No exception leaves [check_address], [check_contract],
    [scan_code_id] or either loop, whatever the transport and the parser
    do. An exception raised by the transport makes [check_address] return
    False after its one request, so the loop moves to the next candidate;
    an exception raised by the transport, or by the parsing of the
    contract list, makes [scan_code_id] print its error line and return. *)
Theorem verifier_total
    (W : Type) (subprocess_run : W -> list string -> W * (exn + CompletedProcess))
    (json_loads : string -> exn + json) (repr : json -> string)
    (parts : string * string) :
  (forall char w, exists w' t b,
     check_address subprocess_run parts char w = (w', t, inr b))
  /\ (forall addr w, exists w' t,
        check_contract subprocess_run repr addr w = (w', t, inr tt))
  /\ (forall i w, exists w' t,
        scan_code_id subprocess_run json_loads repr i w = (w', t, inr tt))
  /\ (forall sigma w, exists w' t b,
        for_c_in subprocess_run parts sigma w = (w', t, inr b))
  /\ (forall ids w, exists w' t,
        for_i_in subprocess_run json_loads repr ids w = (w', t, inr tt))
  /\ (forall char w w' e,
        subprocess_run w (query (address parts char)) = (w', inl e) ->
        check_address subprocess_run parts char w
        = (w', [EvRun (query (address parts char))], inr false))
  /\ (forall c sigma w w' e,
        subprocess_run w (query (address parts (String c ""))) = (w', inl e) ->
        for_c_in subprocess_run parts (String c sigma) w
        = match for_c_in subprocess_run parts sigma w' with
          | (w2, t2, r) =>
              (w2, (EvRun (query (address parts (String c ""))) :: t2)%list, r)
          end)
  /\ (forall i w w' e,
        subprocess_run w (code_query i) = (w', inl e) ->
        scan_code_id subprocess_run json_loads repr i w
        = (w', [EvPrint (scanning_line i); EvRun (code_query i);
                EvPrint (error_line i e)], inr tt))
  /\ (forall i w w' res e,
        subprocess_run w (code_query i) = (w', inr res) ->
        json_loads (stdout res) = inl e
        \/ first_contract json_loads (stdout res) = inl e ->
        scan_code_id subprocess_run json_loads repr i w
        = (w', [EvPrint (scanning_line i); EvRun (code_query i);
                EvPrint (error_line i e)], inr tt)).
Proof.
  repeat apply conj.
  - intros char w.
    destruct (check_address_total subprocess_run parts char w)
      as (w' & t & b & E & _). now eauto.
  - intros addr w.
    destruct (check_contract_shape subprocess_run repr addr w)
      as (w' & t & E & _). now eauto.
  - intros i w.
    destruct (scan_shape subprocess_run json_loads repr i w)
      as (w' & mid & E & _). now eauto.
  - intros sigma w.
    destruct (loop_requests subprocess_run parts sigma w)
      as (w' & t & hit & n & E & _). now eauto.
  - intros ids w.
    destruct (loop_scans_all subprocess_run json_loads repr ids w)
      as (w' & t & E & _). now eauto.
  - intros char w w' e H. rewrite check_address_eq. simpl. now rewrite H.
  - intros c sigma w w' e H.
    rewrite for_c_in_cons, check_address_eq. simpl. now rewrite H.
  - intros i w w' e H. rewrite scan_code_id_eq. simpl. now rewrite H.
  - intros i w w' res e H L. rewrite scan_code_id_eq. simpl. rewrite H.
    assert (first_contract json_loads (stdout res) = inl e) as ->;
      [|reflexivity].
    destruct L as [L|L]; [|exact L]. unfold first_contract. now rewrite L.
Qed.

Lemma verifier_total_when_curl_is_missing :
  check_address failing base_addr_parts "q" tt
  = (tt, [EvRun (query (address base_addr_parts "q"))], inr false)
  /\ scan_code_id failing loads_stub repr_stub 1 tt
     = (tt,
        [EvPrint "Scanning Code ID 1..."; EvRun (code_query 1);
         EvPrint "Error scanning 1: No such file or directory: 'curl'"],
        inr tt)
  /\ scan_code_id (answering "") loads_stub repr_stub 1 tt
     = (tt,
        [EvPrint "Scanning Code ID 1..."; EvRun (code_query 1);
         EvPrint
           "Error scanning 1: Expecting value: line 1 column 1 (char 0)"],
        inr tt).
Proof.
  destruct (verifier_total unit failing loads_stub repr_stub base_addr_parts)
    as (_ & _ & _ & _ & _ & Haddr & _ & Hscan & _).
  destruct (verifier_total unit (answering "") loads_stub repr_stub
              base_addr_parts)
    as (_ & _ & _ & _ & _ & _ & _ & _ & Hparse).
  repeat apply conj.
  - exact (Haddr "q" tt tt _ eq_refl).
  - exact (Hscan 1%Z tt tt _ eq_refl).
  - exact (Hparse 1%Z tt tt _ _ eq_refl (or_introl eq_refl)).
Defined.

(** C8 as stated fails: the query of a contract follows the request for
    the contract list of its code ID with no sleep in between. *)
Lemma contract_query_not_delayed :
  let t := snd (fst (FindMarketplace.main one_contract_each loads_stub
                       repr_stub 0%nat)) in
  nth_error t 1 = Some (EvRun (code_query 1))
  /\ nth_error t 2 = Some (EvPrint "Code 1 has contract: stars1abc")
  /\ nth_error t 3 = Some (EvRun (contract_query repr_stub (JStr "stars1abc")))
  /\ paced any_request (1 # 2) t = false.
Proof. vm_compute. repeat split. Qed.

(** C8, as amended. The scan loop sleeps 0.5 seconds after every call of
    [scan_code_id]: an iteration is the scan, then the sleep, then the
    rest of the loop, so a run over [n] code IDs sleeps [n] times 0.5
    seconds and at least 0.5 seconds are slept between the requests for
    the contract lists of two consecutive code IDs. Nothing is slept
    inside one scan: when a scan queries a contract, only the contract
    line lies between the request for the contract list and the contract
    query. *)
Theorem code_requests_paced
    (W : Type) (subprocess_run : W -> list string -> W * (exn + CompletedProcess))
    (json_loads : string -> exn + json) (repr : json -> string)
    (ids : list Z) (w : W) :
  paced is_code_request (1 # 2)
    (snd (fst (for_i_in subprocess_run json_loads repr ids w))) = true
  /\ paced is_code_request (1 # 2)
       (snd (fst (FindMarketplace.main subprocess_run json_loads repr w)))
     = true
  /\ (forall i rest w0,
        exists w1 t1 w2 t2,
          scan_code_id subprocess_run json_loads repr i w0 = (w1, t1, inr tt)
          /\ for_i_in subprocess_run json_loads repr rest w1
             = (w2, t2, inr tt)
          /\ for_i_in subprocess_run json_loads repr (i :: rest) w0
             = (w2, (t1 ++ EvSleep (1 # 2) :: t2)%list, inr tt))
  /\ (exists w' t,
        for_i_in subprocess_run json_loads repr ids w = (w', t, inr tt)
        /\ sleeps_of t = repeat (1 # 2) (List.length ids)
        /\ filter is_code_request (runs_of t) = map code_query ids)
  /\ (forall i w0,
        let t :=
          snd (fst (scan_code_id subprocess_run json_loads repr i w0)) in
        sleeps_of t = []
        /\ (runs_of t = [code_query i]
            \/ exists addr tail,
                 t = ([EvPrint (scanning_line i); EvRun (code_query i);
                       EvPrint (contract_line repr i addr);
                       EvRun (contract_query repr addr)] ++ tail)%list
                 /\ runs_of tail = [] /\ sleeps_of tail = [])).
Proof.
  repeat apply conj.
  - apply loop_paced; now left.
  - apply loop_paced; now left.
  - intros i rest w0.
    destruct (scan_shape subprocess_run json_loads repr i w0)
      as (w1 & mid & E & _).
    destruct (loop_scans_all subprocess_run json_loads repr rest w1)
      as (w2 & t2 & E2 & _).
    eexists w1, _, w2, t2. repeat apply conj; [exact E | exact E2 |].
    now rewrite for_i_in_cons, E, E2.
  - destruct (loop_scans_all subprocess_run json_loads repr ids w)
      as (w' & t & E & R).
    pose proof (loop_sleeps subprocess_run json_loads repr ids w) as Hs.
    rewrite E in Hs. exists w', t. now repeat apply conj.
  - intros i w0 t. split.
    + apply scan_never_sleeps.
    + unfold t. rewrite scan_code_id_eq. simpl.
      destruct (subprocess_run w0 _) as [w1 [e|res]]; [now left|].
      destruct (first_contract json_loads (stdout res)) as [e|[addr|]];
        [now left | | now left].
      right. rewrite check_contract_eq.
      destruct (subprocess_run w1 _) as [w2 [e|res2]].
      * exists addr, []. now repeat apply conj.
      * destruct (contains "data" (stdout res2)).
        -- exists addr, [EvPrint (config_line repr addr (stdout res2))].
           now repeat apply conj.
        -- exists addr, []. now repeat apply conj.
Qed.

(** C9. In address mode a response whose body lacks the bech32 marker (the
    empty body included) makes [check_address] print the match with the
    body and return True, and the loop stops there; the body is not parsed
    and no [data] key is looked for. *)
Theorem address_mode_accepts_any_other_body
    (W : Type) (subprocess_run : W -> list string -> W * (exn + CompletedProcess))
    (parts : string * string) (c : ascii) (rest : string)
    (w w' : W) (res : CompletedProcess) :
  let addr := address parts (String c "") in
  subprocess_run w (query addr) = (w', inr res) ->
  contains "decoding bech32 failed" (stdout res) = false ->
  check_address subprocess_run parts (String c "") w
  = (w', (EvRun (query addr) :: found_report addr (stdout res))%list, inr true)
  /\ for_c_in subprocess_run parts (String c rest) w
     = (w', (EvRun (query addr) :: found_report addr (stdout res))%list,
        inr true)
  /\ contains "decoding bech32 failed" "" = false.
Proof.
  intros addr Hrun Hbody.
  assert (E : check_address subprocess_run parts (String c "") w
              = (w', (EvRun (query addr) :: found_report addr (stdout res))%list,
                 inr true)).
  { rewrite check_address_eq. fold addr. simpl. now rewrite Hrun, Hbody. }
  repeat apply conj; [exact E | | reflexivity].
  now rewrite for_c_in_cons, E.
Qed.

Lemma address_mode_accepts_empty_body :
  check_address unreachable base_addr_parts "q" tt
  = (tt, (EvRun (query (address base_addr_parts "q"))
          :: found_report (address base_addr_parts "q") "")%list, inr true)
  /\ for_c_in unreachable base_addr_parts charset tt
     = (tt, (EvRun (query (address base_addr_parts "q"))
             :: found_report (address base_addr_parts "q") "")%list, inr true)
  /\ contains "decoding bech32 failed" "" = false.
Proof.
  exact (address_mode_accepts_any_other_body unit unreachable base_addr_parts
           "q"%char "pzry9x8gf2tvdw0s3jn54khce6mua7l" tt tt
           {| returncode := 7; stdout := ""; stderr := "" |}
           eq_refl eq_refl).
Defined.

(** C10. One scan of a code ID never raises and makes the request for the
    contract list, whose URL ends in [pagination.limit=1], followed by at
    most one contract query. When the body parses to a mapping whose
    [contracts] is a non-empty list, the one contract queried is the first
    element of the list. When the list is empty or absent, or the body
    does not parse, no contract is queried. *)
Theorem scan_queries_at_most_one_contract
    (W : Type) (subprocess_run : W -> list string -> W * (exn + CompletedProcess))
    (json_loads : string -> exn + json) (repr : json -> string)
    (i : Z) (w : W) :
  exists w' t,
    scan_code_id subprocess_run json_loads repr i w = (w', t, inr tt)
    /\ (exists rest,
          runs_of t = code_query i :: rest /\ (List.length rest <= 1)%nat)
    /\ (exists url,
          nth_error (code_query i) 4 = Some (url ++ "?pagination.limit=1"))
    /\ (forall w1 e,
          subprocess_run w (code_query i) = (w1, inl e) ->
          runs_of t = [code_query i])
    /\ (forall w1 res,
          subprocess_run w (code_query i) = (w1, inr res) ->
          (forall m first others,
             json_loads (stdout res) = inr (JDict m) ->
             lookup "contracts" m = Some (JList (first :: others)) ->
             runs_of t = [code_query i; contract_query repr first])
          /\ (forall m,
                json_loads (stdout res) = inr (JDict m) ->
                lookup "contracts" m = Some (JList [])
                \/ lookup "contracts" m = None ->
                runs_of t = [code_query i])
          /\ (forall e,
                json_loads (stdout res) = inl e ->
                runs_of t = [code_query i])).
Proof.
  destruct (scan_requests subprocess_run json_loads repr i w)
    as (w' & t & E & R).
  exists w', t. split; [exact E|]. rewrite R. clear E R.
  repeat apply conj.
  - eexists. split; [reflexivity|].
    destruct (subprocess_run w _) as [w1 [e|res]]; simpl; [lia|].
    destruct (first_contract json_loads (stdout res)) as [e|[addr|]];
      simpl; lia.
  - exists ("https://rest.stargaze-apis.com/cosmwasm/wasm/v1/code/"
            ++ str_of_int i ++ "/contracts").
    unfold code_query, code_url, curl. simpl nth_error.
    now rewrite !append_assoc.
  - intros w1 e H. now rewrite H.
  - intros w1 res H. rewrite H. unfold first_contract. repeat apply conj.
    + intros m first others L G. rewrite L. simpl. now rewrite G.
    + intros m L G. rewrite L. simpl. now destruct G as [-> | ->].
    + intros e L. now rewrite L.
Qed.

Lemma scan_queries_first_contract_only :
  exists w' t,
    scan_code_id one_contract_each loads_stub repr_stub 1 0%nat
    = (w', t, inr tt)
    /\ runs_of t = [code_query 1; contract_query repr_stub (JStr "stars1abc")].
Proof.
  destruct (scan_queries_at_most_one_contract nat one_contract_each loads_stub
              repr_stub 1 0%nat) as (w' & t & E & _ & _ & _ & H).
  exists w', t. split; [exact E|].
  destruct (H 1%nat {| returncode := 0; stdout := "LIST"; stderr := "" |}
              eq_refl) as (Hfirst & _ & _).
  exact (Hfirst [("contracts", JList [JStr "stars1abc"])] (JStr "stars1abc") []
           eq_refl eq_refl).
Defined.

End Claims.

(** ** Further properties of the two scripts *)
Module Extras.
Import FindAddr FindMarketplace Design Wire Worlds.
Import StrFacts TraceFacts AddrFacts ScanFacts RangeFacts.

Lemma length_append (s t : string) :
  String.length (s ++ t) = (String.length s + String.length t)%nat.
Proof. induction s; simpl; congruence. Qed.

Lemma candidates_cons (c : ascii) (sigma : string) (parts : string * string) :
  candidates (String c sigma) parts
  = address parts (String c "") :: candidates sigma parts.
Proof. reflexivity. Qed.

(** X1. The trace of the address loop is the requests for the first [n]
    candidates, one after the other with nothing in between, followed by
    the report of a match when the loop broke and by nothing otherwise:
    the loop never sleeps, prints nothing before a match, and reports at
    most one match, that of the candidate requested last. *)
Theorem address_loop_trace
    (W : Type) (subprocess_run : W -> list string -> W * (exn + CompletedProcess))
    (parts : string * string) (sigma : string) (w : W) :
  exists w' n report hit,
    for_c_in subprocess_run parts sigma w
    = (w',
       (map (fun a => EvRun (query a)) (firstn n (candidates sigma parts))
          ++ report)%list,
       inr hit)
    /\ (n <= String.length sigma)%nat
    /\ (hit = false -> n = String.length sigma /\ report = [])
    /\ (hit = true ->
        exists addr payload,
          (1 <= n)%nat
          /\ nth_error (candidates sigma parts) (n - 1) = Some addr
          /\ report = found_report addr payload).
Proof.
  revert w; induction sigma as [|c sigma IH]; intros w.
  - exists w, 0%nat, [], false. repeat apply conj; auto; discriminate.
  - assert (Hskip : forall w1,
              exists w' n report hit,
                (let '(w2, t2, r) := for_c_in subprocess_run parts sigma w1 in
                 (w2, (EvRun (query (address parts (String c ""))) :: t2)%list, r))
                = (w',
                   (map (fun a => EvRun (query a))
                      (firstn n (candidates (String c sigma) parts))
                      ++ report)%list,
                   inr hit)
                /\ (n <= String.length (String c sigma))%nat
                /\ (hit = false ->
                    n = String.length (String c sigma) /\ report = [])
                /\ (hit = true ->
                    exists addr payload,
                      (1 <= n)%nat
                      /\ nth_error (candidates (String c sigma) parts) (n - 1)
                         = Some addr
                      /\ report = found_report addr payload)).
    { intros w1. destruct (IH w1) as (w2 & n & report & hit & E & Hn & Hf & Ht).
      rewrite E. exists w2, (S n), report, hit. rewrite candidates_cons.
      repeat apply conj.
      - reflexivity.
      - simpl. lia.
      - intros H. destruct (Hf H) as [-> ->]. now split.
      - intros H. destruct (Ht H) as (addr & payload & H1 & Hnth & ->).
        exists addr, payload. repeat apply conj; [lia | | reflexivity].
        destruct n as [|m]; [lia|].
        replace (S (S m) - 1)%nat with (S m) by lia.
        replace (S m - 1)%nat with m in Hnth by lia. exact Hnth. }
    rewrite for_c_in_cons, check_address_eq. simpl.
    destruct (subprocess_run w _) as [w1 [e|res]].
    + exact (Hskip w1).
    + destruct (contains _ (stdout res)).
      * exact (Hskip w1).
      * exists w1, 1%nat,
          (found_report (address parts (String c "")) (stdout res)), true.
        rewrite candidates_cons. repeat apply conj.
        -- reflexivity.
        -- simpl. lia.
        -- discriminate.
        -- intros _. now exists (address parts (String c "")), (stdout res).
Qed.

(** X2. A reported match is sound: when the address loop breaks, the
    charset splits at the matching symbol; every symbol before it was
    tried and rejected; the transport returned, for the matching
    candidate, a body without the bech32 marker; and that body is the
    response printed last. *)
Theorem reported_match_is_sound
    (W : Type) (subprocess_run : W -> list string -> W * (exn + CompletedProcess))
    (parts : string * string) (sigma : string) (w w' : W) (t : list event) :
  for_c_in subprocess_run parts sigma w = (w', t, inr true) ->
  exists pre c post w1 t1 res,
    sigma = pre ++ String c post
    /\ for_c_in subprocess_run parts pre w = (w1, t1, inr false)
    /\ subprocess_run w1 (query (address parts (String c ""))) = (w', inr res)
    /\ contains "decoding bech32 failed" (stdout res) = false
    /\ t = (t1 ++ EvRun (query (address parts (String c "")))
               :: found_report (address parts (String c "")) (stdout res))%list.
Proof.
  revert w t; induction sigma as [|c sigma IH]; intros w t H.
  - discriminate.
  - rewrite for_c_in_cons in H.
    pose proof (check_address_eq subprocess_run parts (String c "") w) as E.
    simpl in E.
    destruct (subprocess_run w (query (address parts (String c ""))))
      as [w1 r] eqn:Hrun.
    assert (Hnext : forall tq,
              check_address subprocess_run parts (String c "") w
              = (w1, tq, inr false) ->
              tq = [EvRun (query (address parts (String c "")))] ->
              exists pre c0 post w2 t1 res,
                String c sigma = pre ++ String c0 post
                /\ for_c_in subprocess_run parts pre w = (w2, t1, inr false)
                /\ subprocess_run w2 (query (address parts (String c0 "")))
                   = (w', inr res)
                /\ contains "decoding bech32 failed" (stdout res) = false
                /\ t = (t1 ++ EvRun (query (address parts (String c0 "")))
                           :: found_report (address parts (String c0 ""))
                                (stdout res))%list).
    { intros tq Hq ->. rewrite Hq in H.
      destruct (for_c_in subprocess_run parts sigma w1) as [[w2 t2] r2] eqn:E2.
      injection H as -> <- ->.
      destruct (IH w1 t2 E2) as (pre & c0 & post & w3 & t1 & res & -> & Hpre
                                 & Hc0 & Hbody & ->).
      exists (String c pre), c0, post, w3,
        (EvRun (query (address parts (String c ""))) :: t1)%list, res.
      repeat apply conj; try assumption; try reflexivity.
      rewrite for_c_in_cons, Hq, Hpre. reflexivity. }
    destruct r as [e|res].
    + exact (Hnext _ E eq_refl).
    + destruct (contains "decoding bech32 failed" (stdout res)) eqn:Hbody.
      * exact (Hnext _ E eq_refl).
      * rewrite E in H. injection H as <- <-.
        exists "", c, sigma, w, [], res.
        repeat apply conj; try assumption; reflexivity.
Qed.

Lemma reported_match_is_sound_third_symbol :
  exists pre c post w1 t1 res,
    charset = pre ++ String c post
    /\ for_c_in (accepting_after 2) base_addr_parts pre 0%nat
       = (w1, t1, inr false)
    /\ accepting_after 2 w1 (query (address base_addr_parts (String c "")))
       = (3%nat, inr res)
    /\ contains "decoding bech32 failed" (stdout res) = false
    /\ snd (fst (for_c_in (accepting_after 2) base_addr_parts charset 0%nat))
       = (t1 ++ EvRun (query (address base_addr_parts (String c "")))
             :: found_report (address base_addr_parts (String c ""))
                  (stdout res))%list.
Proof.
  exact (reported_match_is_sound nat (accepting_after 2) base_addr_parts
           charset 0%nat 3%nat _ eq_refl).
Defined.

(** X3. The address loop over a concatenated charset is the loop over the
    first part followed, unless that one broke, by the loop over the
    second part in the world the first left: no state is carried from one
    candidate to the next but the world itself. *)
Theorem address_loop_concat
    (W : Type) (subprocess_run : W -> list string -> W * (exn + CompletedProcess))
    (parts : string * string) (a b : string) (w : W) :
  for_c_in subprocess_run parts (a ++ b) w
  = bind (for_c_in subprocess_run parts a)
      (fun hit => if hit then ret true else for_c_in subprocess_run parts b) w.
Proof.
  revert w; induction a as [|c a IH]; intros w.
  - simpl. unfold bind, ret.
    now destruct (for_c_in subprocess_run parts b w) as [[w2 t2] r].
  - change (String c a ++ b) with (String c (a ++ b)).
    unfold bind. rewrite !for_c_in_cons.
    destruct (check_address subprocess_run parts (String c "") w)
      as [[w1 t1] [e|[|]]].
    + reflexivity.
    + unfold ret. now rewrite app_nil_r.
    + rewrite IH. unfold bind.
      destruct (for_c_in subprocess_run parts a w1) as [[w2 t2] [e|[|]]].
      * reflexivity.
      * unfold ret. now rewrite !app_nil_r.
      * destruct (for_c_in subprocess_run parts b w2) as [[w3 t3] r].
        now rewrite app_assoc.
Qed.

(** X4. All candidate addresses have the same length, the two known parts
    plus one character; a candidate carries its symbol right after the
    first part, and two candidates agree at every other position. *)
Theorem candidates_differ_in_one_place
    (parts : string * string) (c d : ascii) (n : nat) :
  String.length (address parts (String c ""))
  = (String.length (fst parts) + 1 + String.length (snd parts))%nat
  /\ get (String.length (fst parts)) (address parts (String c "")) = Some c
  /\ (n <> String.length (fst parts) ->
      get n (address parts (String c ""))
      = get n (address parts (String d ""))).
Proof.
  unfold address. destruct parts as [p s]. simpl fst; simpl snd.
  change (String c "" ++ s) with (String c s).
  change (String d "" ++ s) with (String d s).
  repeat apply conj.
  - rewrite length_append. simpl. lia.
  - change (String.length p) with (0 + String.length p)%nat.
    rewrite <- (append_correct2 p (String c s) 0). reflexivity.
  - intros Hn. destruct (Nat.lt_ge_cases n (String.length p)) as [Hlt|Hge].
    + now rewrite <- !(append_correct1 p _ n Hlt).
    + replace n with (S (n - String.length p - 1) + String.length p)%nat by lia.
      now rewrite <- !append_correct2.
Qed.

Lemma candidates_differ_in_one_place_q_p :
  String.length (address base_addr_parts "q") = 64%nat
  /\ get 28 (address base_addr_parts "q") = Some "q"%char
  /\ get 27 (address base_addr_parts "q") = get 27 (address base_addr_parts "p")
  /\ get 29 (address base_addr_parts "q") = get 29 (address base_addr_parts "p").
Proof.
  destruct (candidates_differ_in_one_place base_addr_parts "q" "p" 27)
    as (Hlen & Hat & H27).
  destruct (candidates_differ_in_one_place base_addr_parts "q" "p" 29)
    as (_ & _ & H29).
  repeat apply conj.
  - exact Hlen.
  - exact Hat.
  - apply H27. discriminate.
  - apply H29. discriminate.
Defined.

Lemma slice_to_prefix (n : nat) (s : string) :
  exists rest,
    s = slice_to n s ++ rest
    /\ String.length (slice_to n s) = Nat.min n (String.length s).
Proof.
  unfold slice_to. revert s; induction n as [|n IH]; intros s.
  - exists s. now destruct s.
  - destruct s as [|c s]; [now exists ""|].
    destruct (IH s) as (rest & E & L). exists rest. simpl.
    split; [now rewrite <- E | now rewrite L].
Qed.

(** X5. A reported config is an excerpt: when the contract query returns a
    body with the substring [data], the line printed is the contract, then
    the first 200 characters of the body (the whole body when it is
    shorter), while the test for [data] was made on the whole body. *)
Theorem config_excerpt
    (W : Type) (subprocess_run : W -> list string -> W * (exn + CompletedProcess))
    (repr : json -> string) (addr : json) (w w' : W) (res : CompletedProcess) :
  subprocess_run w (contract_query repr addr) = (w', inr res) ->
  contains "data" (stdout res) = true ->
  exists excerpt rest,
    check_contract subprocess_run repr addr w
    = (w',
       [EvRun (contract_query repr addr);
        EvPrint ("Contract " ++ fmt repr addr ++ " Config: " ++ excerpt)],
       inr tt)
    /\ stdout res = excerpt ++ rest
    /\ String.length excerpt = Nat.min 200 (String.length (stdout res)).
Proof.
  intros Hrun Hdata.
  destruct (slice_to_prefix 200 (stdout res)) as (rest & E & L).
  exists (slice_to 200 (stdout res)), rest.
  repeat apply conj; [|exact E|exact L].
  now rewrite check_contract_eq, Hrun, Hdata.
Qed.

Lemma config_excerpt_may_miss_data :
  (exists excerpt rest,
     check_contract (answering (filler 200 ++ "data")) repr_stub
       (JStr "stars1abc") tt
     = (tt,
        [EvRun (contract_query repr_stub (JStr "stars1abc"));
         EvPrint ("Contract " ++ fmt repr_stub (JStr "stars1abc")
                    ++ " Config: " ++ excerpt)],
        inr tt)
     /\ filler 200 ++ "data" = excerpt ++ rest
     /\ String.length excerpt
        = Nat.min 200 (String.length (filler 200 ++ "data")))
  /\ contains "data" (slice_to 200 (filler 200 ++ "data")) = false.
Proof.
  split; [|reflexivity].
  exact (config_excerpt unit (answering (filler 200 ++ "data")) repr_stub
           (JStr "stars1abc") tt tt
           {| returncode := 0; stdout := filler 200 ++ "data"; stderr := "" |}
           eq_refl eq_refl).
Defined.

(** X6. A failing contract query is silent: when the contract list names a
    contract and the query of that contract raises, the scan prints the
    contract line and nothing after it, no error line, and returns
    normally. *)
Theorem contract_failure_is_silent
    (W : Type) (subprocess_run : W -> list string -> W * (exn + CompletedProcess))
    (json_loads : string -> exn + json) (repr : json -> string)
    (i : Z) (w w1 w2 : W) (res : CompletedProcess)
    (m : list (string * json)) (addr : json) (others : list json) (e : exn) :
  subprocess_run w (code_query i) = (w1, inr res) ->
  json_loads (stdout res) = inr (JDict m) ->
  lookup "contracts" m = Some (JList (addr :: others)) ->
  subprocess_run w1 (contract_query repr addr) = (w2, inl e) ->
  scan_code_id subprocess_run json_loads repr i w
  = (w2,
     [EvPrint (scanning_line i); EvRun (code_query i);
      EvPrint (contract_line repr i addr); EvRun (contract_query repr addr)],
     inr tt).
Proof.
  intros Hrun Hload Hget Hquery.
  rewrite scan_code_id_eq. simpl. rewrite Hrun. unfold first_contract.
  rewrite Hload. simpl. rewrite Hget. simpl.
  now rewrite check_contract_eq, Hquery.
Qed.

Lemma contract_failure_is_silent_undecodable :
  scan_code_id contract_queries_raise loads_stub repr_stub 1 0%nat
  = (2%nat,
     [EvPrint (scanning_line 1); EvRun (code_query 1);
      EvPrint (contract_line repr_stub 1 (JStr "stars1abc"));
      EvRun (contract_query repr_stub (JStr "stars1abc"))],
     inr tt).
Proof.
  exact (contract_failure_is_silent nat contract_queries_raise loads_stub
           repr_stub 1 0%nat 1%nat 2%nat
           {| returncode := 0; stdout := "LIST"; stderr := "" |}
           [("contracts", JList [JStr "stars1abc"])] (JStr "stars1abc") []
           (Exn "UnicodeDecodeError"
              "'utf-8' codec can't decode byte 0xff in position 0")
           eq_refl eq_refl eq_refl eq_refl).
Defined.

(** X7. A contract-list body that parses to something other than a mapping
    (a list, a string, a number, true, false or null) is logged as an
    error naming the type that has no [get], and no contract is
    queried. *)
Theorem non_mapping_body_is_logged
    (W : Type) (subprocess_run : W -> list string -> W * (exn + CompletedProcess))
    (json_loads : string -> exn + json) (repr : json -> string)
    (i : Z) (w w1 : W) (res : CompletedProcess) (data : json) :
  subprocess_run w (code_query i) = (w1, inr res) ->
  json_loads (stdout res) = inr data ->
  (forall m, data <> JDict m) ->
  scan_code_id subprocess_run json_loads repr i w
  = (w1,
     [EvPrint (scanning_line i); EvRun (code_query i);
      EvPrint ("Error scanning " ++ str_of_int i ++ ": '" ++ type_name data
                 ++ "' object has no attribute 'get'")],
     inr tt).
Proof.
  intros Hrun Hload Hnot.
  rewrite scan_code_id_eq. simpl. rewrite Hrun. unfold first_contract.
  rewrite Hload.
  destruct data; try reflexivity. now elim (Hnot m).
Qed.

Lemma non_mapping_body_is_logged_list :
  scan_code_id (answering "[]") (loads_as (JList [])) repr_stub 7 tt
  = (tt,
     [EvPrint (scanning_line 7); EvRun (code_query 7);
      EvPrint ("Error scanning " ++ str_of_int 7 ++ ": '"
                 ++ type_name (JList [])
                 ++ "' object has no attribute 'get'")],
     inr tt).
Proof.
  apply (non_mapping_body_is_logged unit (answering "[]") (loads_as (JList []))
           repr_stub 7 tt tt
           {| returncode := 0; stdout := "[]"; stderr := "" |} (JList [])
           eq_refl eq_refl).
  intros m H. discriminate H.
Defined.

(** X8. A [contracts] value that is false in Python (null, false, the
    integer or float zero, the empty string, list or mapping) is passed
    over like a missing one: the scan makes its one request, prints no
    further line and returns. *)
Theorem falsy_contracts_are_skipped
    (W : Type) (subprocess_run : W -> list string -> W * (exn + CompletedProcess))
    (json_loads : string -> exn + json) (repr : json -> string)
    (i : Z) (w w1 : W) (res : CompletedProcess)
    (m : list (string * json)) (v : json) :
  subprocess_run w (code_query i) = (w1, inr res) ->
  json_loads (stdout res) = inr (JDict m) ->
  lookup "contracts" m = Some v ->
  v = JNone \/ v = JBool false \/ v = JInt 0
  \/ (exists sign, v = JFloat (S754_zero sign))
  \/ v = JStr "" \/ v = JList [] \/ v = JDict [] ->
  scan_code_id subprocess_run json_loads repr i w
  = (w1, [EvPrint (scanning_line i); EvRun (code_query i)], inr tt).
Proof.
  intros Hrun Hload Hget Hv.
  rewrite scan_code_id_eq. simpl. rewrite Hrun. unfold first_contract.
  rewrite Hload. simpl. rewrite Hget.
  destruct Hv as [-> | [-> | [-> | [[sign ->] | [-> | [-> | ->]]]]]];
    reflexivity.
Qed.

Lemma falsy_contracts_are_skipped_null :
  scan_code_id (answering "null contracts")
    (loads_as (JDict [("contracts", JNone)])) repr_stub 3 tt
  = (tt, [EvPrint (scanning_line 3); EvRun (code_query 3)], inr tt).
Proof.
  apply (falsy_contracts_are_skipped unit (answering "null contracts")
           (loads_as (JDict [("contracts", JNone)])) repr_stub 3 tt tt
           {| returncode := 0; stdout := "null contracts"; stderr := "" |}
           [("contracts", JNone)] JNone eq_refl eq_refl eq_refl).
  now left.
Defined.

(** X9. A [contracts] value that is a non-empty string is indexed like a
    list: the scan prints and queries, as the contract, the first
    character of the string. *)
Theorem string_contracts_query_first_character
    (W : Type) (subprocess_run : W -> list string -> W * (exn + CompletedProcess))
    (json_loads : string -> exn + json) (repr : json -> string)
    (i : Z) (w w1 : W) (res : CompletedProcess)
    (m : list (string * json)) (c : ascii) (s : string) :
  subprocess_run w (code_query i) = (w1, inr res) ->
  json_loads (stdout res) = inr (JDict m) ->
  lookup "contracts" m = Some (JStr (String c s)) ->
  exists w' t,
    scan_code_id subprocess_run json_loads repr i w = (w', t, inr tt)
    /\ runs_of t = [code_query i; curl (contract_url (String c ""))]
    /\ nth_error (prints_of t) 1
       = Some ("Code " ++ str_of_int i ++ " has contract: " ++ String c "").
Proof.
  intros Hrun Hload Hget.
  rewrite scan_code_id_eq. simpl. rewrite Hrun. unfold first_contract.
  rewrite Hload. simpl. rewrite Hget. simpl.
  destruct (check_contract_shape subprocess_run repr (JStr (String c "")) w1)
    as (w2 & t2 & E & R & _).
  rewrite E. exists w2. eexists. split; [reflexivity|].
  simpl. rewrite R. now split.
Qed.

Lemma string_contracts_query_first_character_s :
  exists w' t,
    scan_code_id (answering "metadata")
      (loads_as (JDict [("contracts", JStr "stars1abc")])) repr_stub 3 tt
    = (w', t, inr tt)
    /\ runs_of t = [code_query 3; curl (contract_url "s")]
    /\ nth_error (prints_of t) 1
       = Some ("Code " ++ str_of_int 3 ++ " has contract: " ++ "s").
Proof.
  exact (string_contracts_query_first_character unit (answering "metadata")
           (loads_as (JDict [("contracts", JStr "stars1abc")])) repr_stub
           3 tt tt {| returncode := 0; stdout := "metadata"; stderr := "" |}
           [("contracts", JStr "stars1abc")] "s"%char "tars1abc"
           eq_refl eq_refl eq_refl).
Defined.

(** X10. A true [contracts] value that cannot be indexed by 0 is logged
    and no contract is queried: a non-empty mapping gives the message of
    [KeyError(0)], which is [0]; a non-zero number or [true] gives the
    message that an object of its type is not subscriptable. *)
Theorem unindexable_contracts_are_logged
    (W : Type) (subprocess_run : W -> list string -> W * (exn + CompletedProcess))
    (json_loads : string -> exn + json) (repr : json -> string)
    (i : Z) (w w1 : W) (res : CompletedProcess)
    (m : list (string * json)) (v : json) (msg : string) :
  subprocess_run w (code_query i) = (w1, inr res) ->
  json_loads (stdout res) = inr (JDict m) ->
  lookup "contracts" m = Some v ->
  ((exists b m', v = JDict (b :: m')) /\ msg = "0")
  \/ (((exists z, v = JInt z) \/ (exists f, v = JFloat f) \/ v = JBool true)
      /\ truthy v = true
      /\ msg = "'" ++ type_name v ++ "' object is not subscriptable") ->
  scan_code_id subprocess_run json_loads repr i w
  = (w1,
     [EvPrint (scanning_line i); EvRun (code_query i);
      EvPrint ("Error scanning " ++ str_of_int i ++ ": " ++ msg)],
     inr tt).
Proof.
  intros Hrun Hload Hget Hv.
  rewrite scan_code_id_eq. simpl. rewrite Hrun. unfold first_contract.
  rewrite Hload. simpl. rewrite Hget.
  destruct Hv as [[(b & m' & ->) ->] | (Hkind & Htrue & ->)].
  - reflexivity.
  - rewrite Htrue.
    destruct Hkind as [[z ->] | [[f ->] | ->]]; reflexivity.
Qed.

Lemma unindexable_contracts_are_logged_count :
  scan_code_id (answering "a count")
    (loads_as (JDict [("contracts", JInt 5)])) repr_stub 3 tt
  = (tt,
     [EvPrint (scanning_line 3); EvRun (code_query 3);
      EvPrint ("Error scanning " ++ str_of_int 3 ++ ": "
                 ++ "'" ++ type_name (JInt 5)
                 ++ "' object is not subscriptable")],
     inr tt).
Proof.
  apply (unindexable_contracts_are_logged unit (answering "a count")
           (loads_as (JDict [("contracts", JInt 5)])) repr_stub 3 tt tt
           {| returncode := 0; stdout := "a count"; stderr := "" |}
           [("contracts", JInt 5)] (JInt 5) _ eq_refl eq_refl eq_refl).
  right. repeat apply conj; [left; now exists 5%Z | reflexivity | reflexivity].
Defined.

(** X11. What one scan prints: the scanning line alone; or followed by one
    error line; or followed by the contract line; or followed by the
    contract line and the config line of that contract, whose body then
    has the substring [data]. An error line and a contract line never
    come from the same scan. *)
Theorem scan_prints
    (W : Type) (subprocess_run : W -> list string -> W * (exn + CompletedProcess))
    (json_loads : string -> exn + json) (repr : json -> string)
    (i : Z) (w : W) :
  let lines :=
    prints_of (snd (fst (scan_code_id subprocess_run json_loads repr i w))) in
  lines = [scanning_line i]
  \/ (exists e, lines = [scanning_line i; error_line i e])
  \/ (exists addr, lines = [scanning_line i; contract_line repr i addr])
  \/ (exists addr body,
        lines = [scanning_line i; contract_line repr i addr;
                 config_line repr addr body]
        /\ contains "data" body = true).
Proof.
  rewrite scan_code_id_eq. simpl.
  destruct (subprocess_run w _) as [w1 [e|res]]; simpl.
  - right; left. now exists e.
  - destruct (first_contract json_loads (stdout res)) as [e|[addr|]]; simpl.
    + right; left. now exists e.
    + rewrite check_contract_eq.
      destruct (subprocess_run w1 _) as [w2 [e|res2]]; simpl.
      * right; right; left. now exists addr.
      * destruct (contains "data" (stdout res2)) eqn:Hdata; simpl.
        -- right; right; right. now exists addr, (stdout res2).
        -- right; right; left. now exists addr.
    + now left.
Qed.

(** X12. The scan loop sleeps 0.5 seconds once per code ID, also after the
    last one, so a run over [n] code IDs ends with a sleep and sleeps
    [n] times; it makes at least [n] and at most [2 n] requests. The
    script sleeps 99 times and makes between 99 and 198 requests. *)
Theorem scan_loop_sleeps
    (W : Type) (subprocess_run : W -> list string -> W * (exn + CompletedProcess))
    (json_loads : string -> exn + json) (repr : json -> string)
    (ids : list Z) (w : W) :
  let t := snd (fst (for_i_in subprocess_run json_loads repr ids w)) in
  let t99 :=
    snd (fst (FindMarketplace.main subprocess_run json_loads repr w)) in
  sleeps_of t = repeat (1 # 2) (List.length ids)
  /\ (List.length ids <= List.length (runs_of t) <= 2 * List.length ids)%nat
  /\ (ids <> [] -> exists t0, t = (t0 ++ [EvSleep (1 # 2)])%list)
  /\ List.length (sleeps_of t99) = 99%nat
  /\ (99 <= List.length (runs_of t99) <= 198)%nat.
Proof.
  assert (H : forall ids w,
            let t := snd (fst (for_i_in subprocess_run json_loads repr ids w)) in
            sleeps_of t = repeat (1 # 2) (List.length ids)
            /\ (List.length ids <= List.length (runs_of t)
                <= 2 * List.length ids)%nat).
  { clear ids w. induction ids as [|i ids IH]; intros w.
    - simpl. repeat apply conj; auto.
    - rewrite for_i_in_cons.
      destruct (scan_shape subprocess_run json_loads repr i w)
        as (w1 & mid & E & Q & Hlen).
      rewrite E. specialize (IH w1).
      destruct (for_i_in subprocess_run json_loads repr ids w1)
        as [[w2 t2] r].
      simpl in IH |- *. destruct IH as (Hs & Hr).
      repeat apply conj.
      + rewrite sleeps_of_app, (sleeps_of_quiet _ Q). simpl. now rewrite Hs.
      + rewrite runs_of_app, length_app. simpl. lia.
      + rewrite runs_of_app, length_app. simpl. lia. }
  assert (Hlast : forall ids w,
            ids <> [] ->
            exists t0,
              snd (fst (for_i_in subprocess_run json_loads repr ids w))
              = (t0 ++ [EvSleep (1 # 2)])%list).
  { clear ids w. induction ids as [|i ids IH]; intros w Hne; [now elim Hne|].
    rewrite for_i_in_cons.
    destruct (scan_shape subprocess_run json_loads repr i w)
      as (w1 & mid & E & _).
    rewrite E. destruct ids as [|j ids].
    - simpl.
      exists (EvPrint (scanning_line i) :: EvRun (code_query i) :: mid).
      reflexivity.
    - destruct (IH w1 ltac:(discriminate)) as [t0 E0].
      destruct (for_i_in subprocess_run json_loads repr (j :: ids) w1)
        as [[w2 t2] r].
      simpl in E0 |- *. subst t2.
      exists (EvPrint (scanning_line i) :: EvRun (code_query i)
                :: mid ++ EvSleep (1 # 2) :: t0).
      simpl. rewrite <- app_assoc. reflexivity. }
  intros t t99. destruct (H ids w) as (Hs & Hr).
  destruct (H (range 1 100 1) w) as (Hs99 & Hr99).
  repeat apply conj; try assumption.
  - exact (proj1 Hr).
  - exact (proj2 Hr).
  - exact (Hlast ids w).
  - unfold t99, FindMarketplace.main. rewrite Hs99, repeat_length. reflexivity.
  - exact (proj1 Hr99).
  - exact (proj2 Hr99).
Qed.

(** X13. The scan loop over a concatenated list of code IDs is the loop
    over the first list followed by the loop over the second in the world
    the first left: scanning a range in two runs makes the same requests
    as scanning it in one. *)
Theorem scan_loop_concat
    (W : Type) (subprocess_run : W -> list string -> W * (exn + CompletedProcess))
    (json_loads : string -> exn + json) (repr : json -> string)
    (a b : list Z) (w : W) :
  for_i_in subprocess_run json_loads repr (a ++ b) w
  = bind (for_i_in subprocess_run json_loads repr a)
      (fun _ => for_i_in subprocess_run json_loads repr b) w.
Proof.
  revert w; induction a as [|i a IH]; intros w.
  - simpl. unfold bind, ret.
    now destruct (for_i_in subprocess_run json_loads repr b w) as [[w2 t2] r].
  - rewrite <- app_comm_cons. unfold bind. rewrite !for_i_in_cons.
    destruct (scan_code_id subprocess_run json_loads repr i w)
      as [[w1 t1] [e|[]]]; [reflexivity|].
    rewrite IH. unfold bind.
    destruct (for_i_in subprocess_run json_loads repr a w1)
      as [[w2 t2] [e|[]]]; [reflexivity|].
    destruct (for_i_in subprocess_run json_loads repr b w2) as [[w3 t3] r].
    now rewrite <- app_assoc.
Qed.

Lemma In_firstn_In {A : Type} (x : A) (n : nat) (l : list A) :
  In x (firstn n l) -> In x l.
Proof.
  revert n; induction l as [|y l IH]; intros [|n]; simpl; try tauto.
  intros [->|H]; [now left | right; now apply (IH n)].
Qed.

(** X14. The command lines the scripts run have one fixed shape. Every
    command of the address loop is the silent [curl] GET, asking for JSON,
    of the API root followed by [contract/], a candidate of the charset
    and the fixed smart query. One scan runs the same kind of GET of the
    API root followed by [code/], the decimal code ID and
    [/contracts?pagination.limit=1], and then at most one more command:
    the GET whose URL has, between [contract/] and the fixed smart query,
    the text of the contract that the response to the first command led
    to, as it is, without escaping. The scan loop runs no command but
    these, for its own code IDs. *)
Theorem every_request_has_the_fixed_shape
    (W : Type) (subprocess_run : W -> list string -> W * (exn + CompletedProcess))
    (json_loads : string -> exn + json) (repr : json -> string)
    (parts : string * string) (sigma : string) (ids : list Z) (w ws : W) :
  Forall
    (fun cmd =>
       exists c, In c (list_ascii_of_string sigma)
                 /\ cmd = contract_request
                            (fst parts ++ String c "" ++ snd parts))
    (runs_of (snd (fst (for_c_in subprocess_run parts sigma w))))
  /\ (forall i w0,
        let runs :=
          runs_of (snd (fst (scan_code_id subprocess_run json_loads repr
                               i w0))) in
        runs = [code_request i]
        \/ exists w1 res addr,
             subprocess_run w0 (code_request i) = (w1, inr res)
             /\ first_contract json_loads (stdout res) = inr (Some addr)
             /\ runs = [code_request i; contract_request (fmt repr addr)])
  /\ Forall
       (fun cmd =>
          (exists i, In i ids /\ cmd = code_request i)
          \/ (exists addr, cmd = contract_request (fmt repr addr)))
       (runs_of (snd (fst (for_i_in subprocess_run json_loads repr ids ws)))).
Proof.
  assert (Hscan : forall i w0,
            let runs :=
              runs_of (snd (fst (scan_code_id subprocess_run json_loads repr
                                   i w0))) in
            runs = [code_request i]
            \/ exists w1 res addr,
                 subprocess_run w0 (code_request i) = (w1, inr res)
                 /\ first_contract json_loads (stdout res) = inr (Some addr)
                 /\ runs = [code_request i; contract_request (fmt repr addr)]).
  { intros i w0 runs. unfold runs.
    destruct (scan_requests subprocess_run json_loads repr i w0)
      as (w' & t & E & R).
    rewrite E. cbn [fst snd]. rewrite R.
    change (code_query i) with (code_request i).
    destruct (subprocess_run w0 (code_request i)) as [w1 [e|res]];
      [now left|].
    destruct (first_contract json_loads (stdout res)) as [e|[addr|]] eqn:F;
      [now left | | now left].
    right. now exists w1, res, addr. }
  repeat apply conj.
  - destruct (loop_requests subprocess_run parts sigma w)
      as (w' & t & hit & n & E & R & _).
    rewrite E. cbn [fst snd]. rewrite R.
    apply Forall_forall. intros cmd Hin.
    apply in_map_iff in Hin as (a & <- & Ha).
    apply In_firstn_In in Ha. unfold candidates in Ha.
    apply in_map_iff in Ha as (c & <- & Hc).
    now exists c.
  - exact Hscan.
  - revert ws; induction ids as [|i ids IH]; intros ws; [constructor|].
    rewrite for_i_in_cons.
    pose proof (Hscan i ws) as Hi. cbv zeta in Hi.
    destruct (scan_shape subprocess_run json_loads repr i ws)
      as (w1 & mid & E & _).
    rewrite E in Hi |- *. specialize (IH w1).
    destruct (for_i_in subprocess_run json_loads repr ids w1) as [[w2 t2] r].
    cbn [fst snd] in *. rewrite runs_of_app. apply Forall_app. split.
    + destruct Hi as [-> | (w3 & res & addr & _ & _ & ->)].
      * constructor; [|constructor]. left. exists i. split; [now left|].
        reflexivity.
      * constructor; [|constructor; [|constructor]].
        -- left. exists i. split; [now left | reflexivity].
        -- right. now exists addr.
    + cbn [runs_of]. eapply Forall_impl; [|exact IH].
      intros cmd [(j & Hj & ->) | (addr & ->)].
      * left. exists j. split; [now right | reflexivity].
      * right. now exists addr.
Qed.

Lemma unescaped_name_is_inserted_as_it_is :
  (let runs :=
     runs_of (snd (fst (scan_code_id (answering "LIST") loads_odd_name
                          repr_stub 1 tt))) in
   runs = [code_request 1]
   \/ exists w1 res addr,
        answering "LIST" tt (code_request 1) = (w1, inr res)
        /\ first_contract loads_odd_name (stdout res) = inr (Some addr)
        /\ runs = [code_request 1; contract_request (fmt repr_stub addr)])
  /\ runs_of (snd (fst (scan_code_id (answering "LIST") loads_odd_name
                          repr_stub 1 tt)))
     = [["curl"; "-s"; "-X"; "GET";
         "https://rest.stargaze-apis.com/cosmwasm/wasm/v1/code/1/contracts?pagination.limit=1";
         "-H"; "accept: application/json"];
        ["curl"; "-s"; "-X"; "GET";
         "https://rest.stargaze-apis.com/cosmwasm/wasm/v1/contract/../x?y=1/smart/eyJjb25maWciOnt9fQ==";
         "-H"; "accept: application/json"]].
Proof.
  split; [|reflexivity].
  exact (proj1 (proj2 (every_request_has_the_fixed_shape unit
                         (answering "LIST") loads_odd_name repr_stub
                         base_addr_parts charset [] tt tt)) 1%Z tt).
Defined.

Lemma append_cancel_r (s t u : string) : s ++ u = t ++ u -> s = t.
Proof.
  intros H. apply (f_equal list_ascii_of_string) in H.
  rewrite !list_ascii_app in H. apply app_inv_tail in H.
  rewrite <- (string_of_list_ascii_of_string s),
          <- (string_of_list_ascii_of_string t).
  now rewrite H.
Qed.

Lemma query_inj (a b : string) : query a = query b -> a = b.
Proof.
  unfold query, curl, contract_url. intros H. injection H as H.
  now apply append_cancel_r in H.
Qed.

Lemma code_query_inj (i j : Z) : code_query i = code_query j -> i = j.
Proof.
  unfold code_query, curl, code_url. intros H. injection H as H.
  apply append_cancel_r in H. now apply str_of_int_inj.
Qed.

Lemma NoDup_firstn {A : Type} (n : nat) (l : list A) :
  NoDup l -> NoDup (firstn n l).
Proof.
  revert n; induction l as [|x l IH]; intros n H.
  - now destruct n.
  - destruct n as [|n]; [constructor|]. simpl.
    inversion H as [|? ? Hx Hl]; subst. constructor; [|now apply IH].
    intros Hin. apply Hx. revert Hin. clear. revert n.
    induction l as [|y l IHl]; intros [|n]; simpl; try tauto.
    intros [->|Hin]; [now left | right; now apply (IHl n)].
Qed.

Lemma range_NoDup (start stop step : Z) :
  (0 < step)%Z -> NoDup (range start stop step).
Proof.
  intros Hs. rewrite range_pos_step by exact Hs.
  pose proof (affine_seq_sorted start step 0
                (Z.to_nat (range_len start stop step)) Hs) as Hsorted.
  induction Hsorted as [|x l _ IH Hall]; constructor; [|exact IH].
  intros Hin. rewrite Forall_forall in Hall. specialize (Hall x Hin). lia.
Qed.

Lemma charset_NoDup : NoDup (list_ascii_of_string charset).
Proof.
  repeat (constructor; [simpl; intuition discriminate|]). constructor.
Qed.

(** X15. No candidate is asked twice: distinct symbols are tried through
    distinct requests, so with a charset of distinct symbols the address
    loop never repeats a request; distinct code IDs have distinct
    contract-list requests, so the scan loop over distinct IDs never asks
    for the same contract list twice. *)
Theorem no_candidate_asked_twice
    (W : Type) (subprocess_run : W -> list string -> W * (exn + CompletedProcess))
    (json_loads : string -> exn + json) (repr : json -> string)
    (parts : string * string) (sigma : string) (ids : list Z) (w ws : W) :
  NoDup (list_ascii_of_string sigma) ->
  NoDup ids ->
  NoDup (runs_of (snd (fst (for_c_in subprocess_run parts sigma w))))
  /\ NoDup (filter is_code_request
              (runs_of (snd (fst (for_i_in subprocess_run json_loads repr
                                    ids ws))))).
Proof.
  intros Hsigma Hids. split.
  - destruct (loop_requests subprocess_run parts sigma w)
      as (w' & t & hit & n & E & R & _).
    rewrite E. cbn [fst snd]. rewrite R.
    apply NoDup_map_NoDup_ForallPairs.
    + intros a b _ _. apply query_inj.
    + apply NoDup_firstn. unfold candidates.
      apply NoDup_map_NoDup_ForallPairs; [|exact Hsigma].
      intros c d _ _ H. unfold address in H.
      apply append_cancel_l in H. simpl in H. congruence.
  - destruct (loop_scans_all subprocess_run json_loads repr ids ws)
      as (w' & t & E & R).
    rewrite E. cbn [fst snd]. rewrite R.
    apply NoDup_map_NoDup_ForallPairs; [|exact Hids].
    intros i j _ _. apply code_query_inj.
Qed.

Lemma no_candidate_asked_twice_by_the_scripts :
  NoDup (runs_of (snd (fst (for_c_in one_contract_each base_addr_parts
                              charset 0%nat))))
  /\ NoDup (filter is_code_request
              (runs_of (snd (fst (for_i_in one_contract_each loads_stub
                                    repr_stub (range 1 100 1) 0%nat))))).
Proof.
  apply (no_candidate_asked_twice nat one_contract_each loads_stub repr_stub
           base_addr_parts charset (range 1 100 1) 0%nat 0%nat).
  - exact charset_NoDup.
  - apply range_NoDup. lia.
Defined.

(** X16. A contract query has a cause: one scan either makes the request
    for the contract list only, or the transport returned a body, the body
    parsed to a mapping, the value found under [contracts] is true and
    has an item 0, and the second and last request is the query of that
    item. No contract is ever queried that the contract list of the same
    scan did not name. *)
Theorem contract_query_has_a_cause
    (W : Type) (subprocess_run : W -> list string -> W * (exn + CompletedProcess))
    (json_loads : string -> exn + json) (repr : json -> string)
    (i : Z) (w : W) :
  let t := snd (fst (scan_code_id subprocess_run json_loads repr i w)) in
  runs_of t = [code_query i]
  \/ (exists w1 res m contracts addr,
        subprocess_run w (code_query i) = (w1, inr res)
        /\ json_loads (stdout res) = inr (JDict m)
        /\ dict_get (JDict m) "contracts" (JList []) = inr contracts
        /\ truthy contracts = true
        /\ getitem0 contracts = inr addr
        /\ runs_of t = [code_query i; contract_query repr addr]).
Proof.
  destruct (scan_requests subprocess_run json_loads repr i w)
    as (w' & t & E & R).
  rewrite E. cbn [fst snd]. rewrite R. clear E R.
  destruct (subprocess_run w (code_query i)) as [w1 [e|res]] eqn:Hrun;
    [now left|].
  unfold first_contract.
  destruct (json_loads (stdout res)) as [e|data] eqn:Hload; [now left|].
  destruct (dict_get data "contracts" (JList [])) as [e|contracts] eqn:Hget;
    [now left|].
  destruct (truthy contracts) eqn:Htrue; [|now left].
  destruct (getitem0 contracts) as [e|addr] eqn:Hitem; [now left|].
  right. destruct data; try discriminate.
  exists w1, res, m, contracts, addr. repeat apply conj; auto.
Qed.

End Extras.
